(** * Blender_IMGFromClipboard: the clipboard DIB to BMP file conversion

    A shallow embedding of [dib_to_bmp_file_bytes] from
    [Blender_IMGFromClipboard.py], together with the fragment of Python's
    [struct] module the function relies on, and the properties of the
    reconstructed bitmap file. *)

From Stdlib Require Import String ZArith Bool Lia List.
From Stdlib Require Import Strings.Byte.
Import ListNotations.

Open Scope Z_scope.

(** ** Python values and exceptions *)

Module Py.

(** A Python [bytes] object. *)
Definition bytes : Type := list byte.

(** The two ways a [struct] call fails here: [unpack_from] on a buffer that
    ends before the field does, [pack] on an integer outside the range of
    its format code. *)
Inductive struct_failure : Type :=
| BufferTooSmall
| ArgumentOutOfRange.

(** The exceptions the function can raise. [struct.error] is not a subclass
    of [ValueError]. *)
Inductive exn : Type :=
| ValueError (msg : string)
| struct_error (why : struct_failure).

Inductive result (A : Type) : Type :=
| Return (a : A)
| Raise (e : exn).

Arguments Return {A} a.
Arguments Raise {A} e.

Definition bind {A B : Type} (m : result A) (k : A -> result B) : result B :=
  match m with
  | Return a => k a
  | Raise e => Raise e
  end.

(** [len(b)] *)
Definition len (b : bytes) : Z := Z.of_nat (length b).

(** Truth value of a [bytes] object: empty is false. *)
Definition truthy (b : bytes) : bool :=
  match b with
  | [] => false
  | _ :: _ => true
  end.

(** The integer value of one byte, and the byte of an integer taken
    modulo 256. *)
Definition byte_val (b : byte) : Z := Z.of_N (Byte.to_N b).

Definition byte_of_Z (z : Z) : byte :=
  match Byte.of_N (Z.to_N (z mod 256)) with
  | Some b => b
  | None => x00
  end.

End Py.

Import Py.

Declare Scope py_scope.
Delimit Scope py_scope with py.
Notation "x <- m ;; k" := (bind m (fun x => k))
  (at level 61, m at next level, right associativity) : py_scope.
Open Scope py_scope.

(** ** The [struct] module, little-endian standard sizes *)

Module Struct.

(** [int.from_bytes(bs, "little")] *)
Fixpoint int_from_bytes_le (bs : bytes) : Z :=
  match bs with
  | [] => 0
  | b :: rest => byte_val b + 256 * int_from_bytes_le rest
  end.

(** [x.to_bytes(w, "little")] for [x] in range. *)
Fixpoint int_to_bytes_le (w : nat) (x : Z) : bytes :=
  match w with
  | O => []
  | S w' => byte_of_Z (x mod 256) :: int_to_bytes_le w' (x / 256)
  end.

(** [struct.unpack_from("<I", buffer, offset)[0]] for [w = 4] and
    [struct.unpack_from("<H", buffer, offset)[0]] for [w = 2]: the buffer
    must hold [w] bytes from [offset] on. *)
Definition unpack_from_uint (w : nat) (buffer : bytes) (offset : nat)
  : result Z :=
  if (offset + w <=? length buffer)%nat
  then Return (int_from_bytes_le (firstn w (skipn offset buffer)))
  else Raise (struct_error BufferTooSmall).

Definition unpack_from_I := unpack_from_uint 4.
Definition unpack_from_H := unpack_from_uint 2.

(** One unsigned field of [struct.pack] with byte order [<]: the argument
    must lie in [0 .. 2^(8w) - 1]. *)
Definition pack_uint (w : nat) (x : Z) : result bytes :=
  if (0 <=? x) && (x <? 2 ^ (8 * Z.of_nat w))
  then Return (int_to_bytes_le w x)
  else Raise (struct_error ArgumentOutOfRange).

(** The [ns] format code: the argument cut or padded with null bytes to
    [n] bytes. *)
Definition pack_s (n : nat) (s : bytes) : bytes :=
  firstn n s ++ repeat x00 (n - length s).

(** [struct.pack("<2sIHHI", s, a, b, c, d)] *)
Definition pack_2sIHHI (s : bytes) (a b c d : Z) : result bytes :=
  fa <- pack_uint 4 a ;;
  fb <- pack_uint 2 b ;;
  fc <- pack_uint 2 c ;;
  fd <- pack_uint 4 d ;;
  Return (pack_s 2 s ++ fa ++ fb ++ fc ++ fd).

End Struct.

Import Struct.

(** ** [dib_to_bmp_file_bytes] *)

(** The literal [b"BM"]. *)
Definition BM : bytes := [x42; x4d].

Definition msg_too_small : string := "Clipboard DIB data is invalid or too small."%string.
Definition msg_invalid_header : string := "Invalid DIB header."%string.

(** The local [palette_entries] after the [if biBitCount <= 8] block. *)
Definition palette_entries (biBitCount biClrUsed : Z) : Z :=
  if biBitCount <=? 8
  then (if negb (biClrUsed =? 0) then biClrUsed else Z.shiftl 1 biBitCount)
  else 0.

(** [palette_size = palette_entries * 4] *)
Definition palette_size (entries : Z) : Z := entries * 4.

(** The local [masks_size] after the [if biCompression in (3, 6)] block. *)
Definition masks_size (biCompression biSize : Z) : Z :=
  if (biCompression =? 3) || (biCompression =? 6)
  then (if biSize =? 40 then 12 else 0)
  else 0.

(** [off_bits = 14 + biSize + palette_size + masks_size] *)
Definition off_bits (biSize palette masks : Z) : Z :=
  14 + biSize + palette + masks.

Definition dib_to_bmp_file_bytes (dib : bytes) : result bytes :=
  if negb (truthy dib) || (len dib <? 40)
  then Raise (ValueError msg_too_small)
  else
    biSize <- unpack_from_I dib 0 ;;
    if (biSize <? 40) || (len dib <? biSize)
    then Raise (ValueError msg_invalid_header)
    else
      biBitCount <- unpack_from_H dib 14 ;;
      biCompression <- unpack_from_I dib 16 ;;
      biClrUsed <- unpack_from_I dib 32 ;;
      let entries := palette_entries biBitCount biClrUsed in
      let palette := palette_size entries in
      let masks := masks_size biCompression biSize in
      let off := off_bits biSize palette masks in
      let file_size := 14 + len dib in
      bfh <- pack_2sIHHI BM file_size 0 0 off ;;
      Return (bfh ++ dib).

(** ** The specification's vocabulary

    Fields are named by their offset and read byte by byte, least significant
    byte first; the size rules are written as the specification words them.
    The theorems below relate these to what the code computes. *)

Module Spec.

Definition byte_at (buf : bytes) (i : nat) : Z := byte_val (nth i buf x00).

(** Two bytes at [off], little-endian. *)
Definition u16le_at (buf : bytes) (off : nat) : Z :=
  byte_at buf off + 2 ^ 8 * byte_at buf (off + 1).

(** Four bytes at [off], little-endian. *)
Definition u32le_at (buf : bytes) (off : nat) : Z :=
  byte_at buf off + 2 ^ 8 * byte_at buf (off + 1)
  + 2 ^ 16 * byte_at buf (off + 2) + 2 ^ 24 * byte_at buf (off + 3).

Definition header_size (dib : bytes) : Z := u32le_at dib 0.
Definition bits_per_pixel (dib : bytes) : Z := u16le_at dib 14.
Definition compression (dib : bytes) : Z := u32le_at dib 16.
Definition colors_used (dib : bytes) : Z := u32le_at dib 32.

(** An input buffer that passes both validations. *)
Definition accepted (dib : bytes) : Prop :=
  40 <= len dib /\ 40 <= header_size dib /\ header_size dib <= len dib.

(** Entry count: colors-used if nonzero, else [2^bits-per-pixel]; four bytes
    per entry; nothing above 8 bits per pixel. *)
Definition palette_count (bpp used : Z) : Z :=
  if used =? 0 then 2 ^ bpp else used.

Definition palette_bytes (bpp used : Z) : Z :=
  if bpp <=? 8 then 4 * palette_count bpp used else 0.

(** Twelve bytes when the compression code is 3 or 6 and the header is
    exactly 40 bytes. *)
Definition mask_bytes (comp hsize : Z) : Z :=
  if ((comp =? 3) || (comp =? 6)) && (hsize =? 40) then 12 else 0.

Definition pixel_offset (dib : bytes) : Z :=
  14 + header_size dib
  + palette_bytes (bits_per_pixel dib) (colors_used dib)
  + mask_bytes (compression dib) (header_size dib).

(** Largest value of an unsigned 32-bit field. *)
Definition uint32_max : Z := 4294967295.

(** Both integers of the file header fit their 32-bit fields. *)
Definition header_fits (dib : bytes) : Prop :=
  14 + len dib <= uint32_max /\ pixel_offset dib <= uint32_max.

(** Byte [k] of the little-endian encoding of [x]. *)
Definition le_byte (x : Z) (k : Z) : byte := byte_of_Z (x / 2 ^ (8 * k)).

Definition le16 (x : Z) : bytes := [le_byte x 0; le_byte x 1].
Definition le32 (x : Z) : bytes :=
  [le_byte x 0; le_byte x 1; le_byte x 2; le_byte x 3].

(** The 14-byte file header: signature, total file size, two reserved
    16-bit fields, pixel-data offset. *)
Definition file_header (dib : bytes) : bytes :=
  BM ++ le32 (14 + len dib) ++ le16 0 ++ le16 0 ++ le32 (pixel_offset dib).

End Spec.

(** ** Sample clipboard buffers

    Each is a BITMAPINFOHEADER of 40 bytes: biSize, biWidth, biHeight,
    biPlanes, biBitCount, biCompression, biSizeImage, biXPelsPerMeter,
    biYPelsPerMeter, biClrUsed, biClrImportant. *)

Module Samples.

Definition zeros (n : nat) : bytes := repeat x00 n.

(** A 40-byte header with the given bit count (one byte), compression code
    (one byte) and colors-used field (four bytes, least significant
    first). *)
Definition header40 (bitcount comp : byte) (c0 c1 c2 c3 : byte) : bytes :=
  [x28; x00; x00; x00] ++ [x01; x00; x00; x00] ++ [x01; x00; x00; x00]
  ++ [x01; x00] ++ [bitcount; x00] ++ [comp; x00; x00; x00]
  ++ zeros 12 ++ [c0; c1; c2; c3] ++ zeros 4.

(** 24 bits per pixel, uncompressed, followed by one padded pixel row. *)
Definition dib_rgb24 : bytes :=
  header40 x18 x00 x00 x00 x00 x00 ++ [x10; x20; x30; x00].

(** 8 bits per pixel, uncompressed, default palette. *)
Definition dib_pal8 : bytes := header40 x08 x00 x00 x00 x00 x00.

(** 8 bits per pixel with compression code 3. *)
Definition dib_pal8_bitfields : bytes := header40 x08 x03 x00 x00 x00 x00.

(** 32 bits per pixel, bitfields. *)
Definition dib_bitfields32 : bytes := header40 x20 x03 x00 x00 x00 x00.

(** 8 bits per pixel, colors-used = 1000 (0x3e8). *)
Definition dib_pal8_used1000 : bytes := header40 x08 x00 xe8 x03 x00 x00.

(** 8 bits per pixel, colors-used = 0x40000000. *)
Definition dib_pal8_used_2p30 : bytes := header40 x08 x00 x00 x00 x00 x40.

(** 4 bits per pixel, colors-used = 0x7fffffff. *)
Definition dib_pal4_used_max : bytes := header40 x04 x00 xff xff xff x7f.

(** 1 bit per pixel, colors-used = 0xffffffff. *)
Definition dib_pal1_used_all : bytes := header40 x01 x00 xff xff xff xff.

(** 8 bits per pixel, colors-used = 0xffffffff. *)
Definition dib_pal8_used_all : bytes := header40 x08 x00 xff xff xff xff.

(** Declared header size 100 in a 50-byte buffer. *)
Definition dib_declared100_len50 : bytes := [x64; x00; x00; x00] ++ zeros 46.

(** Declared header size 12 (an OS/2 core header) in a 40-byte buffer. *)
Definition dib_declared12 : bytes := [x0c; x00; x00; x00] ++ zeros 36.

(** A 39-byte buffer. *)
Definition dib_len39 : bytes := [x28; x00; x00; x00] ++ zeros 35.

(** 2 bits per pixel, colors-used = 0x80000000. *)
Definition dib_pal2_used_2p31 : bytes := header40 x02 x00 x00 x00 x00 x80.

(** The header of [dib_rgb24] followed by a different pixel row. *)
Definition dib_rgb24_other : bytes :=
  header40 x18 x00 x00 x00 x00 x00 ++ [xff; xee; xdd; x00].

End Samples.

(** ** The clipboard and the disk

    [get_clipboard_dib_bytes] and [save_clipboard_image_to_disk] talk to the
    operating system. Their embedding writes every such call, with what it
    returned, to a trace; the answers of the system are a parameter of the
    run. The ctypes calls return a value and do not raise; [os.makedirs],
    [open] and the write can raise [OSError]. *)

Module Sys.

Definition CF_DIB : Z := 8.
Definition CF_DIBV5 : Z := 17.

(** What the system answers during one run. A [BOOL] is an integer, true
    when nonzero; a [HANDLE] or [LPVOID] result is [None] for NULL, as
    ctypes returns it. [STORAGE_DIR] is the module constant, [strftime] the
    time stamp, [ms_03d] the text of the millisecond field and [path_join]
    stands for [os.path.join]. [makedirs_raises] and [open_raises] say
    whether [os.makedirs] and [open] raise [OSError]; [write_raises] is
    [Some n] when the write, or the close that ends the [with] block, raises
    [OSError] after [n] bytes have reached the file. *)
Record answers : Type := {
  os_name_is_nt : bool;
  IsClipboardFormatAvailable : Z -> Z;
  OpenClipboard : Z;
  GetClipboardData : Z -> option Z;
  GlobalSize : Z -> Z;
  GlobalLock : Z -> option Z;
  string_at : Z -> Z -> bytes;
  STORAGE_DIR : string;
  strftime : string;
  ms_03d : string;
  path_join : string -> string -> string;
  makedirs_raises : bool;
  open_raises : bool;
  write_raises : option nat
}.

(** One call with its arguments and, where the code looks at it, its
    result. *)
Inductive call : Type :=
| IsClipboardFormatAvailable_ (fmt : Z) (r : Z)
| OpenClipboard_ (r : Z)
| GetClipboardData_ (fmt : Z) (h : option Z)
| GlobalSize_ (h : Z) (size : Z)
| GlobalLock_ (h : Z) (ptr : option Z)
| string_at_ (ptr size : Z)
| GlobalUnlock_ (h : Z)
| CloseClipboard_
| makedirs_ (dir : string) (ok : bool)
| open_wb_ (path : string) (ok : bool)
| write_ (path : string) (data : bytes) (ok : bool).

(** What [save_clipboard_image_to_disk] can raise: an exception of the
    reconstructor, or [OSError] from the disk. *)
Inductive raised : Type :=
| from_reconstructor (e : exn)
| OSError.

Inductive outcome (A : Type) : Type :=
| Done (a : A)
| Raised (r : raised).

Arguments Done {A} a.
Arguments Raised {A} r.

(** A computation: the calls made, in order, and the value. *)
Definition io (A : Type) : Type := (list call * A)%type.

Definition io_ret {A : Type} (a : A) : io A := ([], a).

Definition io_bind {A B : Type} (m : io A) (k : A -> io B) : io B :=
  let (t1, a) := m in
  let (t2, b) := k a in
  (t1 ++ t2, b).

(** Performing call [c], which returns [a]. *)
Definition perform {A : Type} (c : call) (a : A) : io A := ([c], a).

(** [try: body finally: fin] around calls that do not raise: [fin] runs after
    [body] on every path, the value is that of [body]. *)
Definition try_finally {A : Type} (body : io A) (fin : io unit) : io A :=
  io_bind body (fun a => io_bind fin (fun _ => io_ret a)).

(** Sequencing of computations that can raise: an exception ends the run. *)
Definition io_try {A B : Type} (m : io (outcome A))
  (k : A -> io (outcome B)) : io (outcome B) :=
  io_bind m (fun r =>
               match r with
               | Done a => k a
               | Raised e => io_ret (Raised e)
               end).

(** Truth value of an integer. *)
Definition nonzero (z : Z) : bool := negb (z =? 0).

End Sys.

Import Sys.

Declare Scope io_scope.
Delimit Scope io_scope with io.
Notation "x <- m ;; k" := (Sys.io_bind m (fun x => k))
  (at level 61, m at next level, right associativity) : io_scope.
Notation "x <~ m ;; k" := (Sys.io_try m (fun x => k))
  (at level 61, m at next level, right associativity) : io_scope.

Definition get_clipboard_dib_bytes (os : answers) : io (option bytes) :=
  (if negb (os_name_is_nt os) then io_ret None
   else
     v5 <- perform (IsClipboardFormatAvailable_ CF_DIBV5
                      (IsClipboardFormatAvailable os CF_DIBV5))
             (IsClipboardFormatAvailable os CF_DIBV5) ;;
     fmt <- (if nonzero v5 then io_ret (Some CF_DIBV5)
             else
               v <- perform (IsClipboardFormatAvailable_ CF_DIB
                               (IsClipboardFormatAvailable os CF_DIB))
                      (IsClipboardFormatAvailable os CF_DIB) ;;
               if nonzero v then io_ret (Some CF_DIB) else io_ret None) ;;
     match fmt with
     | None => io_ret None
     | Some fmt =>
         opened <- perform (OpenClipboard_ (OpenClipboard os))
                     (OpenClipboard os) ;;
         if negb (nonzero opened) then io_ret None
         else
           try_finally
             (h <- perform (GetClipboardData_ fmt (GetClipboardData os fmt))
                     (GetClipboardData os fmt) ;;
              match h with
              | None => io_ret None
              | Some h =>
                  size <- perform (GlobalSize_ h (GlobalSize os h))
                            (GlobalSize os h) ;;
                  ptr <- perform (GlobalLock_ h (GlobalLock os h))
                           (GlobalLock os h) ;;
                  match ptr with
                  | None => io_ret None
                  | Some ptr =>
                      try_finally
                        (perform (string_at_ ptr size)
                           (Some (string_at os ptr size)))
                        (perform (GlobalUnlock_ h) tt)
                  end
              end)
             (perform CloseClipboard_ tt)
     end)%io.

Definition ensure_storage_dir (os : answers) : io (outcome string) :=
  if makedirs_raises os
  then perform (makedirs_ (STORAGE_DIR os) false) (Raised OSError)
  else perform (makedirs_ (STORAGE_DIR os) true) (Done (STORAGE_DIR os)).

(** The path [make_unique_bmp_path] builds once the directory is there. *)
Definition unique_bmp_path (os : answers) : string :=
  let stamp := strftime os in
  path_join os (STORAGE_DIR os)
    ("clipboard_" ++ stamp ++ "_" ++ ms_03d os ++ ".bmp")%string.

Definition make_unique_bmp_path (os : answers) : io (outcome string) :=
  (_ <~ ensure_storage_dir os ;;
   io_ret (Done (unique_bmp_path os)))%io.

(** [with open(path, "wb") as f: f.write(data)] *)
Definition open_and_write (os : answers) (path : string) (data : bytes)
  : io (outcome unit) :=
  if open_raises os
  then perform (open_wb_ path false) (Raised OSError)
  else
    (_ <- perform (open_wb_ path true) tt ;;
     match write_raises os with
     | None => perform (write_ path data true) (Done tt)
     | Some n => perform (write_ path (firstn n data) false) (Raised OSError)
     end)%io.

(** [not dib] for a value that is [None] or a [bytes] object. In
    [save_clipboard_image_to_disk] the value is a [bytes] object once this
    test has failed. *)
Definition falsy (dib : option bytes) : bool :=
  match dib with
  | None => true
  | Some b => negb (truthy b)
  end.

Definition save_clipboard_image_to_disk (os : answers) : io (outcome string) :=
  (dib <- get_clipboard_dib_bytes os ;;
   if falsy dib then io_ret (Done ""%string)
   else
     match dib with
     | None => io_ret (Done ""%string)
     | Some dib =>
         match dib_to_bmp_file_bytes dib with
         | Raise e => io_ret (Raised (from_reconstructor e))
         | Return bmp_bytes =>
             path <~ make_unique_bmp_path os ;;
             _ <~ open_and_write os path bmp_bytes ;;
             io_ret (Done path)
         end
     end)%io.

(** Sample runs. *)

Module Runs.

(** Windows with [data] on the clipboard as CF_DIB only: handle 4096, locked
    at address 8192. *)
Definition with_dib (data : bytes) : answers := {|
  os_name_is_nt := true;
  IsClipboardFormatAvailable := fun fmt => if fmt =? CF_DIB then 1 else 0;
  OpenClipboard := 1;
  GetClipboardData := fun fmt => if fmt =? CF_DIB then Some 4096 else None;
  GlobalSize := fun _ => len data;
  GlobalLock := fun _ => Some 8192;
  string_at := fun _ _ => data;
  STORAGE_DIR := "C:\Temp\Blender_IMGFromClipboard";
  strftime := "20240102_030405";
  ms_03d := "007";
  path_join := fun a b => (a ++ "\" ++ b)%string;
  makedirs_raises := false;
  open_raises := false;
  write_raises := None
|}.

(** Both formats announced, but no data behind CF_DIBV5. *)
Definition v5_without_data (data : bytes) : answers := {|
  os_name_is_nt := true;
  IsClipboardFormatAvailable := fun _ => 1;
  OpenClipboard := 1;
  GetClipboardData := fun fmt => if fmt =? CF_DIB then Some 4096 else None;
  GlobalSize := fun _ => len data;
  GlobalLock := fun _ => Some 8192;
  string_at := fun _ _ => data;
  STORAGE_DIR := "C:\Temp\Blender_IMGFromClipboard";
  strftime := "20240102_030405";
  ms_03d := "007";
  path_join := fun a b => (a ++ "\" ++ b)%string;
  makedirs_raises := false;
  open_raises := false;
  write_raises := None
|}.

(** As [with_dib], on a disk that fills up after [n] bytes of the file. *)
Definition disk_full_after (n : nat) (data : bytes) : answers := {|
  os_name_is_nt := true;
  IsClipboardFormatAvailable := fun fmt => if fmt =? CF_DIB then 1 else 0;
  OpenClipboard := 1;
  GetClipboardData := fun fmt => if fmt =? CF_DIB then Some 4096 else None;
  GlobalSize := fun _ => len data;
  GlobalLock := fun _ => Some 8192;
  string_at := fun _ _ => data;
  STORAGE_DIR := "C:\Temp\Blender_IMGFromClipboard";
  strftime := "20240102_030405";
  ms_03d := "007";
  path_join := fun a b => (a ++ "\" ++ b)%string;
  makedirs_raises := false;
  open_raises := false;
  write_raises := Some n
|}.

End Runs.

(** The order of calls in a run, as a checker that follows a trace through
    its phases. Availability is asked only before the clipboard is opened;
    the clipboard is opened once; data is fetched, measured and locked only
    while it is open, copied only while the handle is locked, and only the
    locked handle is unlocked; the clipboard is closed only while open with
    nothing locked, and no clipboard call follows. The disk is touched only
    after the clipboard has been opened and closed: the directory first,
    then the file is opened, then written, each only after the call before
    it succeeded, and nothing follows the write. Every other call in every
    other phase is refused. *)
Inductive phase : Type :=
| Probing
| Refused
| Opened
| Locked (h : Z)
| Closed
| DirMade
| FileOpen (path : string)
| Finished.

Definition step (ph : phase) (c : call) : option phase :=
  match ph, c with
  | Probing, IsClipboardFormatAvailable_ _ _ => Some Probing
  | Probing, OpenClipboard_ r => Some (if nonzero r then Opened else Refused)
  | Opened, GetClipboardData_ _ _ => Some Opened
  | Opened, GlobalSize_ _ _ => Some Opened
  | Opened, GlobalLock_ h (Some _) => Some (Locked h)
  | Opened, GlobalLock_ _ None => Some Opened
  | Locked h, string_at_ _ _ => Some (Locked h)
  | Locked h, GlobalUnlock_ h' => if h' =? h then Some Opened else None
  | Opened, CloseClipboard_ => Some Closed
  | Closed, makedirs_ _ ok => Some (if ok then DirMade else Finished)
  | DirMade, open_wb_ path ok => Some (if ok then FileOpen path else Finished)
  | FileOpen path, write_ path' _ _ =>
      if String.eqb path' path then Some Finished else None
  | _, _ => None
  end.

Fixpoint follow (ph : phase) (t : list call) : option phase :=
  match t with
  | [] => Some ph
  | c :: t' =>
      match step ph c with
      | Some ph' => follow ph' t'
      | None => None
      end
  end.

(** The phases in which a run may end: nothing is left open, locked or
    half done. *)
Definition settled (ph : phase) : bool :=
  match ph with
  | Probing | Refused | Closed | Finished => true
  | Opened | Locked _ | DirMade | FileOpen _ => false
  end.

(** The calls that reach the disk. *)
Definition touches_disk (c : call) : bool :=
  match c with
  | makedirs_ _ _ | open_wb_ _ _ | write_ _ _ _ => true
  | _ => false
  end.

(** ** Bytes and little-endian integers *)

Section ByteFacts.

Lemma byte_val_range (b : byte) : 0 <= byte_val b < 256.
Proof.
  unfold byte_val. pose proof (Byte.to_N_bounded b) as Hb. lia.
Qed.

Lemma byte_val_of_Z (z : Z) : byte_val (byte_of_Z z) = z mod 256.
Proof.
  assert (Hm : 0 <= z mod 256 < 256) by (apply Z.mod_pos_bound; lia).
  unfold byte_val, byte_of_Z.
  destruct (Byte.of_N (Z.to_N (z mod 256))) as [b|] eqn:E.
  - apply Byte.to_of_N in E. rewrite E. apply Z2N.id. lia.
  - apply Byte.of_N_None_iff in E. lia.
Qed.

Lemma byte_of_Z_mod (z : Z) : byte_of_Z (z mod 256) = byte_of_Z z.
Proof.
  unfold byte_of_Z. rewrite Z.mod_mod by lia. reflexivity.
Qed.

Lemma length_int_to_bytes_le (w : nat) :
  forall x, length (int_to_bytes_le w x) = w.
Proof.
  induction w as [|w IH]; intros x; simpl; [reflexivity|].
  now rewrite IH.
Qed.

(** Decoding undoes encoding on every integer the field can hold. *)
Lemma int_from_to_bytes_le (w : nat) :
  forall x, 0 <= x < 2 ^ (8 * Z.of_nat w) ->
            int_from_bytes_le (int_to_bytes_le w x) = x.
Proof.
  induction w as [|w IH]; intros x Hx.
  - simpl in *. lia.
  - cbn [int_to_bytes_le int_from_bytes_le].
    rewrite byte_val_of_Z, Z.mod_mod by lia.
    rewrite IH.
    + pose proof (Z.div_mod x 256). lia.
    + replace (8 * Z.of_nat (S w)) with (8 + 8 * Z.of_nat w) in Hx by lia.
      rewrite Z.pow_add_r in Hx by lia.
      change (2 ^ 8) with 256 in Hx.
      split.
      * apply Z.div_pos; lia.
      * apply Z.div_lt_upper_bound; lia.
Qed.

Lemma int_to_bytes_le_2 (x : Z) : int_to_bytes_le 2 x = Spec.le16 x.
Proof.
  unfold Spec.le16, Spec.le_byte. cbn [int_to_bytes_le].
  rewrite !byte_of_Z_mod.
  change (2 ^ (8 * 0)) with 1. change (2 ^ (8 * 1)) with 256.
  now rewrite Z.div_1_r.
Qed.

Lemma int_to_bytes_le_4 (x : Z) : int_to_bytes_le 4 x = Spec.le32 x.
Proof.
  unfold Spec.le32, Spec.le_byte. cbn [int_to_bytes_le].
  rewrite !byte_of_Z_mod, !Z.div_div by lia.
  change (2 ^ (8 * 0)) with 1. change (2 ^ (8 * 1)) with 256.
  change (2 ^ (8 * 2)) with (256 * 256).
  change (2 ^ (8 * 3)) with (256 * 256 * 256).
  now rewrite Z.div_1_r.
Qed.

Lemma skipn_nth_cons (l : bytes) :
  forall n, (n < length l)%nat -> skipn n l = nth n l x00 :: skipn (S n) l.
Proof.
  induction l as [|b l IH]; intros n Hn; simpl in Hn; [lia|].
  destruct n as [|n]; [reflexivity|].
  cbn [skipn nth]. apply IH. lia.
Qed.

Lemma u16le_at_decode (buf : bytes) (off : nat) :
  (off + 2 <= length buf)%nat ->
  int_from_bytes_le (firstn 2 (skipn off buf)) = Spec.u16le_at buf off.
Proof.
  intros H.
  rewrite (skipn_nth_cons buf off), (skipn_nth_cons buf (S off)) by lia.
  cbn [firstn int_from_bytes_le].
  unfold Spec.u16le_at, Spec.byte_at.
  replace (off + 1)%nat with (S off) by lia.
  change (2 ^ 8) with 256. lia.
Qed.

Lemma u32le_at_decode (buf : bytes) (off : nat) :
  (off + 4 <= length buf)%nat ->
  int_from_bytes_le (firstn 4 (skipn off buf)) = Spec.u32le_at buf off.
Proof.
  intros H.
  rewrite (skipn_nth_cons buf off), (skipn_nth_cons buf (S off)),
    (skipn_nth_cons buf (S (S off))), (skipn_nth_cons buf (S (S (S off))))
    by lia.
  cbn [firstn int_from_bytes_le].
  unfold Spec.u32le_at, Spec.byte_at.
  replace (off + 1)%nat with (S off) by lia.
  replace (off + 2)%nat with (S (S off)) by lia.
  replace (off + 3)%nat with (S (S (S off))) by lia.
  change (2 ^ 8) with 256. change (2 ^ 16) with 65536.
  change (2 ^ 24) with 16777216. lia.
Qed.

Lemma u16le_at_range (buf : bytes) (off : nat) :
  0 <= Spec.u16le_at buf off < 2 ^ 16.
Proof.
  unfold Spec.u16le_at, Spec.byte_at.
  pose proof (byte_val_range (nth off buf x00)).
  pose proof (byte_val_range (nth (off + 1) buf x00)).
  change (2 ^ 8) with 256. change (2 ^ 16) with 65536. lia.
Qed.

Lemma u32le_at_range (buf : bytes) (off : nat) :
  0 <= Spec.u32le_at buf off < 2 ^ 32.
Proof.
  unfold Spec.u32le_at, Spec.byte_at.
  pose proof (byte_val_range (nth off buf x00)).
  pose proof (byte_val_range (nth (off + 1) buf x00)).
  pose proof (byte_val_range (nth (off + 2) buf x00)).
  pose proof (byte_val_range (nth (off + 3) buf x00)).
  change (2 ^ 8) with 256. change (2 ^ 16) with 65536.
  change (2 ^ 24) with 16777216. change (2 ^ 32) with 4294967296. lia.
Qed.

End ByteFacts.

(** ** Running the reconstructor *)

Section Reconstructor.

Lemma unpack_from_I_ok (buf : bytes) (off : nat) :
  Z.of_nat off + 4 <= len buf ->
  unpack_from_I buf off = Return (Spec.u32le_at buf off).
Proof.
  unfold len, unpack_from_I, unpack_from_uint. intros H.
  destruct (Nat.leb_spec (off + 4) (length buf)) as [Hle|Hgt]; [|lia].
  now rewrite u32le_at_decode.
Qed.

Lemma unpack_from_H_ok (buf : bytes) (off : nat) :
  Z.of_nat off + 2 <= len buf ->
  unpack_from_H buf off = Return (Spec.u16le_at buf off).
Proof.
  unfold len, unpack_from_H, unpack_from_uint. intros H.
  destruct (Nat.leb_spec (off + 2) (length buf)) as [Hle|Hgt]; [|lia].
  now rewrite u16le_at_decode.
Qed.

Lemma first_check_passes (dib : bytes) :
  40 <= len dib -> negb (truthy dib) || (len dib <? 40) = false.
Proof.
  intros H. destruct dib as [|b dib]; [cbn in H; lia|].
  cbn [truthy negb orb]. apply Z.ltb_ge. exact H.
Qed.

Lemma first_check_fails (dib : bytes) :
  len dib < 40 -> negb (truthy dib) || (len dib <? 40) = true.
Proof.
  intros H. apply orb_true_iff. right. now apply Z.ltb_lt.
Qed.

(** The code's palette and mask arithmetic against the rules as worded. *)
Lemma palette_size_rule (bpp used : Z) :
  palette_size (palette_entries bpp used) = Spec.palette_bytes bpp used.
Proof.
  unfold palette_size, palette_entries, Spec.palette_bytes, Spec.palette_count.
  rewrite Z.shiftl_1_l.
  destruct (bpp <=? 8); [|reflexivity].
  destruct (used =? 0); cbn [negb]; lia.
Qed.

Lemma masks_size_rule (comp hsize : Z) :
  masks_size comp hsize = Spec.mask_bytes comp hsize.
Proof.
  unfold masks_size, Spec.mask_bytes.
  destruct ((comp =? 3) || (comp =? 6)), (hsize =? 40); reflexivity.
Qed.

Lemma palette_bytes_nonneg (bpp used : Z) :
  0 <= used -> 0 <= Spec.palette_bytes bpp used.
Proof.
  intros Hu. unfold Spec.palette_bytes, Spec.palette_count.
  destruct (bpp <=? 8); [|lia].
  destruct (used =? 0); [|lia].
  pose proof (Z.pow_nonneg 2 bpp). lia.
Qed.

Lemma mask_bytes_cases (comp hsize : Z) :
  Spec.mask_bytes comp hsize = 0 \/ Spec.mask_bytes comp hsize = 12.
Proof.
  unfold Spec.mask_bytes.
  destruct (((comp =? 3) || (comp =? 6)) && (hsize =? 40)); auto.
Qed.

Lemma pixel_offset_lower (dib : bytes) :
  Spec.accepted dib -> 54 <= Spec.pixel_offset dib.
Proof.
  intros (_ & Hs & _). unfold Spec.pixel_offset.
  pose proof (u32le_at_range dib 32) as Hu.
  pose proof (palette_bytes_nonneg (Spec.bits_per_pixel dib)
                (Spec.colors_used dib) (proj1 Hu)).
  destruct (mask_bytes_cases (Spec.compression dib) (Spec.header_size dib));
    lia.
Qed.

(** On an accepted buffer both checks pass, the four reads succeed, and the
    function comes down to the [struct.pack] call and the concatenation. *)
Lemma reconstructor_accepted (dib : bytes) :
  Spec.accepted dib ->
  dib_to_bmp_file_bytes dib =
  (bfh <- pack_2sIHHI BM (14 + len dib) 0 0 (Spec.pixel_offset dib) ;;
   Return (bfh ++ dib)).
Proof.
  intros (Hlen & Hlo & Hhi). unfold dib_to_bmp_file_bytes.
  rewrite first_check_passes by exact Hlen.
  rewrite (unpack_from_I_ok dib 0) by (cbn; lia). cbn [bind].
  fold (Spec.header_size dib).
  replace ((Spec.header_size dib <? 40) || (len dib <? Spec.header_size dib))
    with false
    by (symmetry; apply orb_false_iff; split; apply Z.ltb_ge; lia).
  rewrite (unpack_from_H_ok dib 14), (unpack_from_I_ok dib 16),
    (unpack_from_I_ok dib 32) by (cbn; lia).
  cbn [bind]. unfold off_bits.
  rewrite palette_size_rule, masks_size_rule. reflexivity.
Qed.

Lemma pack_uint_ok (w : nat) (x : Z) :
  0 <= x < 2 ^ (8 * Z.of_nat w) -> pack_uint w x = Return (int_to_bytes_le w x).
Proof.
  intros [H0 H1]. unfold pack_uint.
  apply Z.leb_le in H0. apply Z.ltb_lt in H1. now rewrite H0, H1.
Qed.

Lemma pack_uint_out_of_range (w : nat) (x : Z) :
  2 ^ (8 * Z.of_nat w) <= x ->
  pack_uint w x = Raise (struct_error ArgumentOutOfRange).
Proof.
  intros H. unfold pack_uint. apply Z.ltb_ge in H. rewrite H.
  now rewrite andb_false_r.
Qed.

Lemma pack_file_header (dib : bytes) :
  0 <= Spec.pixel_offset dib ->
  Spec.header_fits dib ->
  pack_2sIHHI BM (14 + len dib) 0 0 (Spec.pixel_offset dib)
  = Return (Spec.file_header dib).
Proof.
  intros H0 [Hsize Hoff]. unfold Spec.uint32_max in *.
  unfold pack_2sIHHI, Spec.file_header.
  rewrite (pack_uint_ok 4 (14 + len dib))
    by (change (2 ^ (8 * Z.of_nat 4)) with 4294967296; unfold len in *; lia).
  rewrite (pack_uint_ok 4 (Spec.pixel_offset dib))
    by (change (2 ^ (8 * Z.of_nat 4)) with 4294967296; lia).
  rewrite (pack_uint_ok 2 0) by (change (2 ^ (8 * Z.of_nat 2)) with 65536; lia).
  cbn [bind]. rewrite !int_to_bytes_le_4, !int_to_bytes_le_2. reflexivity.
Qed.

(** The result on every accepted buffer whose header integers fit. *)
Lemma reconstructor_returns (dib : bytes) :
  Spec.accepted dib -> Spec.header_fits dib ->
  dib_to_bmp_file_bytes dib = Return (Spec.file_header dib ++ dib).
Proof.
  intros Hacc Hfit. rewrite reconstructor_accepted by exact Hacc.
  rewrite pack_file_header; [reflexivity| |exact Hfit].
  pose proof (pixel_offset_lower dib Hacc). lia.
Qed.

(** An offset beyond 32 bits makes [struct.pack] raise. *)
Lemma reconstructor_overflow (dib : bytes) :
  Spec.accepted dib -> Spec.uint32_max < Spec.pixel_offset dib ->
  dib_to_bmp_file_bytes dib = Raise (struct_error ArgumentOutOfRange).
Proof.
  intros Hacc Hbig. rewrite reconstructor_accepted by exact Hacc.
  unfold pack_2sIHHI.
  destruct (pack_uint 4 (14 + len dib)) as [fa|e] eqn:Ea; cbn [bind].
  - rewrite (pack_uint_ok 2 0)
      by (change (2 ^ (8 * Z.of_nat 2)) with 65536; lia).
    cbn [bind]. rewrite pack_uint_out_of_range; [reflexivity|].
    change (2 ^ (8 * Z.of_nat 4)) with 4294967296.
    unfold Spec.uint32_max in Hbig. lia.
  - unfold pack_uint in Ea.
    destruct (_ && _) in Ea; [discriminate|].
    injection Ea as <-. reflexivity.
Qed.

End Reconstructor.

(** ** The fields of the synthesized header *)

Section FileHeader.

Lemma le32_decode (x : Z) :
  0 <= x <= Spec.uint32_max ->
  byte_val (Spec.le_byte x 0) + 2 ^ 8 * byte_val (Spec.le_byte x 1)
  + 2 ^ 16 * byte_val (Spec.le_byte x 2)
  + 2 ^ 24 * byte_val (Spec.le_byte x 3) = x.
Proof.
  intros Hx. unfold Spec.uint32_max in Hx.
  assert (Hr : 0 <= x < 2 ^ (8 * Z.of_nat 4))
    by (change (2 ^ (8 * Z.of_nat 4)) with 4294967296; lia).
  pose proof (int_from_to_bytes_le 4 x Hr) as E.
  rewrite int_to_bytes_le_4 in E. unfold Spec.le32 in E.
  cbn [int_from_bytes_le] in E.
  change (2 ^ 8) with 256. change (2 ^ 16) with 65536.
  change (2 ^ 24) with 16777216. lia.
Qed.

Lemma file_header_length (dib : bytes) : length (Spec.file_header dib) = 14%nat.
Proof. reflexivity. Qed.

Lemma file_header_signature (dib rest : bytes) :
  firstn 2 (Spec.file_header dib ++ rest) = BM.
Proof. reflexivity. Qed.

Lemma file_header_size_field (dib rest : bytes) :
  14 + len dib <= Spec.uint32_max ->
  Spec.u32le_at (Spec.file_header dib ++ rest) 2 = 14 + len dib.
Proof.
  intros H.
  unfold Spec.u32le_at, Spec.byte_at, Spec.file_header, BM, Spec.le32,
    Spec.le16.
  cbn [app nth Nat.add]. apply le32_decode. unfold len in *. lia.
Qed.

Lemma file_header_reserved (dib rest : bytes) :
  Spec.u16le_at (Spec.file_header dib ++ rest) 6 = 0
  /\ Spec.u16le_at (Spec.file_header dib ++ rest) 8 = 0.
Proof. split; reflexivity. Qed.

Lemma file_header_offset_field (dib rest : bytes) :
  0 <= Spec.pixel_offset dib <= Spec.uint32_max ->
  Spec.u32le_at (Spec.file_header dib ++ rest) 10 = Spec.pixel_offset dib.
Proof.
  intros H.
  unfold Spec.u32le_at, Spec.byte_at, Spec.file_header, BM, Spec.le32,
    Spec.le16.
  cbn [app nth Nat.add]. apply le32_decode. exact H.
Qed.

End FileHeader.

(** Closed facts about the sample buffers are settled by evaluation. *)
Ltac by_evaluation :=
  vm_compute; repeat split; try reflexivity; try (intro; discriminate).

(** ** The pixel-data offset *)

(** C1, as stated, fails on an accepted buffer: a 40-byte header with 8 bits
    per pixel and colors-used = 2^30 asks for a palette of 2^32 bytes, the
    offset no longer fits the 32-bit field, and [struct.pack] raises instead
    of writing it. *)
Lemma pixel_offset_not_written_on_overflow :
  Spec.accepted Samples.dib_pal8_used_2p30
  /\ ~ (exists out,
          dib_to_bmp_file_bytes Samples.dib_pal8_used_2p30 = Return out
          /\ Spec.u32le_at out 10
             = Spec.pixel_offset Samples.dib_pal8_used_2p30).
Proof.
  split; [by_evaluation|].
  intros (out & E & _). vm_compute in E. discriminate E.
Qed.

(** C1, amended. For every accepted buffer whose file size and pixel-data
    offset fit an unsigned 32-bit field, the function returns a file whose
    four bytes at offset 10, read little-endian, are
    14 + declared header size + palette bytes + mask bytes; for a 40-byte
    header with 24 bits per pixel, compression 0 and colors-used 0 both
    sizes are 0 and the offset is 54. *)
Theorem pixel_offset_written (dib : bytes) :
  Spec.accepted dib -> Spec.header_fits dib ->
  exists out,
    dib_to_bmp_file_bytes dib = Return out
    /\ Spec.u32le_at out 10
       = 14 + Spec.header_size dib
         + Spec.palette_bytes (Spec.bits_per_pixel dib) (Spec.colors_used dib)
         + Spec.mask_bytes (Spec.compression dib) (Spec.header_size dib)
    /\ (Spec.header_size dib = 40 -> Spec.bits_per_pixel dib = 24 ->
        Spec.compression dib = 0 -> Spec.colors_used dib = 0 ->
        Spec.palette_bytes (Spec.bits_per_pixel dib) (Spec.colors_used dib) = 0
        /\ Spec.mask_bytes (Spec.compression dib) (Spec.header_size dib) = 0
        /\ Spec.u32le_at out 10 = 54).
Proof.
  intros Hacc Hfit. exists (Spec.file_header dib ++ dib).
  pose proof (pixel_offset_lower dib Hacc) as Hlow.
  assert (Hoff : Spec.u32le_at (Spec.file_header dib ++ dib) 10
                 = Spec.pixel_offset dib)
    by (apply file_header_offset_field; destruct Hfit; lia).
  split; [now apply reconstructor_returns|].
  split; [exact Hoff|].
  intros Hs Hb Hc Hu. rewrite Hoff. unfold Spec.pixel_offset.
  rewrite Hs, Hb, Hc, Hu. repeat split.
Qed.

Lemma pixel_offset_written_rgb24 :
  Spec.accepted Samples.dib_rgb24 /\ Spec.header_fits Samples.dib_rgb24
  /\ exists out,
       dib_to_bmp_file_bytes Samples.dib_rgb24 = Return out
       /\ Spec.u32le_at out 10 = 54.
Proof.
  assert (Ha : Spec.accepted Samples.dib_rgb24) by by_evaluation.
  assert (Hf : Spec.header_fits Samples.dib_rgb24) by by_evaluation.
  destruct (pixel_offset_written Samples.dib_rgb24 Ha Hf)
    as (out & E & _ & H54).
  split; [exact Ha|]. split; [exact Hf|].
  exists out. split; [exact E|]. apply H54; reflexivity.
Defined.

(** ** The palette size *)

(** C2, as stated, fails in its example: with a 40-byte header, 8 bits per
    pixel and colors-used 0 the offset is 1078 only while the compression
    code is neither 3 nor 6; with compression 3 the twelve mask bytes are
    added as well and the offset is 1090. *)
Lemma palette8_offset_with_bitfields :
  Spec.accepted Samples.dib_pal8_bitfields
  /\ Spec.header_size Samples.dib_pal8_bitfields = 40
  /\ Spec.bits_per_pixel Samples.dib_pal8_bitfields = 8
  /\ Spec.colors_used Samples.dib_pal8_bitfields = 0
  /\ exists out,
       dib_to_bmp_file_bytes Samples.dib_pal8_bitfields = Return out
       /\ Spec.u32le_at out 10 = 1090
       /\ Spec.u32le_at out 10 <> 1078.
Proof.
  repeat (split; [by_evaluation|]).
  exists (Spec.file_header Samples.dib_pal8_bitfields
          ++ Samples.dib_pal8_bitfields).
  by_evaluation.
Qed.

(** C2, amended. For every accepted buffer the function reads bits-per-pixel
    at offset 14 and colors-used at offset 32, and the palette size it uses
    is 4 times the entry count when bits-per-pixel <= 8 (colors-used if
    nonzero, else 2^bits-per-pixel) and 0 above 8; this is the size that
    enters the packed offset. With bits-per-pixel 8 and colors-used 0 there
    are 256 entries and 1024 palette bytes, and for a 40-byte header whose
    compression code is neither 3 nor 6 the pixel-data offset is 1078. *)
Theorem palette_size_used (dib : bytes) :
  Spec.accepted dib ->
  unpack_from_H dib 14 = Return (Spec.bits_per_pixel dib)
  /\ unpack_from_I dib 32 = Return (Spec.colors_used dib)
  /\ palette_size
       (palette_entries (Spec.bits_per_pixel dib) (Spec.colors_used dib))
     = (if Spec.bits_per_pixel dib <=? 8
        then 4 * (if Spec.colors_used dib =? 0
                  then 2 ^ Spec.bits_per_pixel dib
                  else Spec.colors_used dib)
        else 0)
  /\ dib_to_bmp_file_bytes dib
     = (bfh <- pack_2sIHHI BM (14 + len dib) 0 0
                 (14 + Spec.header_size dib
                  + palette_size
                      (palette_entries (Spec.bits_per_pixel dib)
                         (Spec.colors_used dib))
                  + masks_size (Spec.compression dib) (Spec.header_size dib)) ;;
        Return (bfh ++ dib))
  /\ (Spec.bits_per_pixel dib = 8 -> Spec.colors_used dib = 0 ->
      palette_entries (Spec.bits_per_pixel dib) (Spec.colors_used dib) = 256
      /\ palette_size
           (palette_entries (Spec.bits_per_pixel dib) (Spec.colors_used dib))
         = 1024
      /\ (Spec.header_size dib = 40 ->
          Spec.compression dib <> 3 -> Spec.compression dib <> 6 ->
          14 + len dib <= Spec.uint32_max ->
          exists out,
            dib_to_bmp_file_bytes dib = Return out
            /\ Spec.u32le_at out 10 = 1078)).
Proof.
  intros Hacc. pose proof Hacc as (Hlen & Hlo & Hhi).
  split; [apply unpack_from_H_ok; cbn; lia|].
  split; [apply unpack_from_I_ok; cbn; lia|].
  split; [apply palette_size_rule|].
  split.
  { rewrite reconstructor_accepted by exact Hacc.
    unfold Spec.pixel_offset.
    now rewrite palette_size_rule, masks_size_rule. }
  intros Hb Hu. rewrite Hb, Hu.
  split; [reflexivity|]. split; [reflexivity|].
  intros Hs Hc3 Hc6 Hsize.
  assert (Hoff : Spec.pixel_offset dib = 1078).
  { unfold Spec.pixel_offset, Spec.mask_bytes. rewrite Hs, Hb, Hu.
    apply Z.eqb_neq in Hc3. apply Z.eqb_neq in Hc6. now rewrite Hc3, Hc6. }
  assert (Hfit : Spec.header_fits dib)
    by (split; [exact Hsize|rewrite Hoff; unfold Spec.uint32_max; lia]).
  exists (Spec.file_header dib ++ dib).
  split; [now apply reconstructor_returns|].
  rewrite file_header_offset_field; [exact Hoff|].
  rewrite Hoff. unfold Spec.uint32_max. lia.
Qed.

Lemma palette_size_used_pal8 :
  Spec.accepted Samples.dib_pal8
  /\ palette_size
       (palette_entries (Spec.bits_per_pixel Samples.dib_pal8)
          (Spec.colors_used Samples.dib_pal8)) = 1024
  /\ exists out,
       dib_to_bmp_file_bytes Samples.dib_pal8 = Return out
       /\ Spec.u32le_at out 10 = 1078.
Proof.
  assert (Ha : Spec.accepted Samples.dib_pal8) by by_evaluation.
  destruct (palette_size_used Samples.dib_pal8 Ha)
    as (_ & _ & _ & _ & Hex).
  destruct Hex as (_ & H1024 & H1078); [reflexivity|reflexivity|].
  split; [exact Ha|]. split; [exact H1024|].
  apply H1078; by_evaluation.
Defined.

(** ** The color-mask size *)

(** C3. For every accepted buffer the function reads the compression code at
    offset 16, and the mask size it uses is 12 exactly when that code is 3
    or 6 and the declared header size is 40, and 0 otherwise; this is the
    size that enters the packed offset. A 40-byte header with compression 3
    and 32 bits per pixel has mask size 12 and pixel-data offset 66. *)
Theorem masks_size_used (dib : bytes) :
  Spec.accepted dib ->
  unpack_from_I dib 0 = Return (Spec.header_size dib)
  /\ unpack_from_I dib 16 = Return (Spec.compression dib)
  /\ (masks_size (Spec.compression dib) (Spec.header_size dib) = 12
      <-> (Spec.compression dib = 3 \/ Spec.compression dib = 6)
          /\ Spec.header_size dib = 40)
  /\ (~ ((Spec.compression dib = 3 \/ Spec.compression dib = 6)
         /\ Spec.header_size dib = 40) ->
      masks_size (Spec.compression dib) (Spec.header_size dib) = 0)
  /\ dib_to_bmp_file_bytes dib
     = (bfh <- pack_2sIHHI BM (14 + len dib) 0 0
                 (14 + Spec.header_size dib
                  + palette_size
                      (palette_entries (Spec.bits_per_pixel dib)
                         (Spec.colors_used dib))
                  + masks_size (Spec.compression dib) (Spec.header_size dib)) ;;
        Return (bfh ++ dib))
  /\ (Spec.header_size dib = 40 -> Spec.compression dib = 3 ->
      Spec.bits_per_pixel dib = 32 ->
      masks_size (Spec.compression dib) (Spec.header_size dib) = 12
      /\ Spec.pixel_offset dib = 66
      /\ (14 + len dib <= Spec.uint32_max ->
          exists out,
            dib_to_bmp_file_bytes dib = Return out
            /\ Spec.u32le_at out 10 = 66)).
Proof.
  intros Hacc. pose proof Hacc as (Hlen & Hlo & Hhi).
  split; [apply unpack_from_I_ok; cbn; lia|].
  split; [apply unpack_from_I_ok; cbn; lia|].
  assert (Hcases :
            masks_size (Spec.compression dib) (Spec.header_size dib)
            = if ((Spec.compression dib =? 3) || (Spec.compression dib =? 6))
                 && (Spec.header_size dib =? 40)
              then 12 else 0) by apply masks_size_rule.
  split.
  { rewrite Hcases. split.
    - destruct (Z.eqb_spec (Spec.compression dib) 3),
        (Z.eqb_spec (Spec.compression dib) 6),
        (Z.eqb_spec (Spec.header_size dib) 40);
        cbn [orb andb]; intros H; try discriminate H; auto.
    - intros [[H|H] Hs]; rewrite H, Hs; reflexivity. }
  split.
  { rewrite Hcases. intros Hn.
    destruct (Z.eqb_spec (Spec.compression dib) 3),
      (Z.eqb_spec (Spec.compression dib) 6),
      (Z.eqb_spec (Spec.header_size dib) 40);
      cbn [orb andb]; try reflexivity; exfalso; apply Hn; auto. }
  split.
  { rewrite reconstructor_accepted by exact Hacc.
    unfold Spec.pixel_offset.
    now rewrite palette_size_rule, masks_size_rule. }
  intros Hs Hc Hb.
  assert (Hoff : Spec.pixel_offset dib = 66)
    by (unfold Spec.pixel_offset; rewrite Hs, Hc, Hb; reflexivity).
  split; [rewrite Hs, Hc; reflexivity|]. split; [exact Hoff|].
  intros Hsize.
  assert (Hfit : Spec.header_fits dib)
    by (split; [exact Hsize|rewrite Hoff; unfold Spec.uint32_max; lia]).
  exists (Spec.file_header dib ++ dib).
  split; [now apply reconstructor_returns|].
  rewrite file_header_offset_field; [exact Hoff|].
  rewrite Hoff. unfold Spec.uint32_max. lia.
Qed.

Lemma masks_size_used_bitfields32 :
  Spec.accepted Samples.dib_bitfields32
  /\ masks_size (Spec.compression Samples.dib_bitfields32)
       (Spec.header_size Samples.dib_bitfields32) = 12
  /\ exists out,
       dib_to_bmp_file_bytes Samples.dib_bitfields32 = Return out
       /\ Spec.u32le_at out 10 = 66.
Proof.
  assert (Ha : Spec.accepted Samples.dib_bitfields32) by by_evaluation.
  destruct (masks_size_used Samples.dib_bitfields32 Ha)
    as (_ & _ & _ & _ & _ & Hex).
  destruct Hex as (H12 & _ & H66); [reflexivity|reflexivity|reflexivity|].
  split; [exact Ha|]. split; [exact H12|].
  apply H66; by_evaluation.
Defined.

(** ** The output *)

(** C4, as stated, fails on an accepted buffer: with 4 bits per pixel and
    colors-used = 0x7fffffff the offset does not fit its field, the function
    raises, and there is no output at all. *)
Lemma no_output_on_overflow :
  Spec.accepted Samples.dib_pal4_used_max
  /\ ~ (exists bfh,
          dib_to_bmp_file_bytes Samples.dib_pal4_used_max
          = Return (bfh ++ Samples.dib_pal4_used_max)).
Proof.
  split; [by_evaluation|].
  intros (bfh & E). vm_compute in E. discriminate E.
Qed.

(** C4, amended. For every accepted buffer whose file size and pixel-data
    offset fit an unsigned 32-bit field, the output is a 14-byte header
    followed by the whole input: its length is 14 + input length and from
    offset 14 on it is the input, byte for byte. *)
Theorem output_is_header_then_input (dib : bytes) :
  Spec.accepted dib -> Spec.header_fits dib ->
  exists bfh out,
    dib_to_bmp_file_bytes dib = Return out
    /\ out = bfh ++ dib
    /\ length bfh = 14%nat
    /\ len out = 14 + len dib
    /\ skipn 14 out = dib
    /\ (forall i, nth_error out (14 + i) = nth_error dib i).
Proof.
  intros Hacc Hfit.
  exists (Spec.file_header dib), (Spec.file_header dib ++ dib).
  split; [now apply reconstructor_returns|].
  split; [reflexivity|]. split; [reflexivity|].
  split; [unfold len; rewrite length_app, file_header_length; lia|].
  split; [reflexivity|].
  intros i. rewrite nth_error_app2 by (rewrite file_header_length; lia).
  rewrite file_header_length. f_equal. lia.
Qed.

Lemma output_is_header_then_input_rgb24 :
  Spec.accepted Samples.dib_rgb24 /\ Spec.header_fits Samples.dib_rgb24
  /\ exists out,
       dib_to_bmp_file_bytes Samples.dib_rgb24 = Return out
       /\ len out = 58
       /\ skipn 14 out = Samples.dib_rgb24.
Proof.
  assert (Ha : Spec.accepted Samples.dib_rgb24) by by_evaluation.
  assert (Hf : Spec.header_fits Samples.dib_rgb24) by by_evaluation.
  destruct (output_is_header_then_input Samples.dib_rgb24 Ha Hf)
    as (bfh & out & E & _ & _ & Hlen & Hskip & _).
  split; [exact Ha|]. split; [exact Hf|].
  exists out. split; [exact E|]. split; [exact Hlen|exact Hskip].
Defined.

(** ** The file header *)

(** C5, as stated, fails on an accepted buffer: with 1 bit per pixel and
    colors-used = 0xffffffff no header is synthesized, [struct.pack]
    raises on the offset. *)
Lemma no_header_on_overflow :
  Spec.accepted Samples.dib_pal1_used_all
  /\ ~ (exists bfh rest,
          dib_to_bmp_file_bytes Samples.dib_pal1_used_all
          = Return (bfh ++ rest)
          /\ length bfh = 14%nat).
Proof.
  split; [by_evaluation|].
  intros (bfh & rest & E & _). vm_compute in E. discriminate E.
Qed.

(** C5, amended. For every accepted buffer whose file size and pixel-data
    offset fit an unsigned 32-bit field, the output starts with a header of
    exactly 14 bytes: the signature [BM], the file size 14 + input length in
    four bytes, two 2-byte fields of zero, and the pixel-data offset in four
    bytes, each integer least significant byte first. *)
Theorem file_header_layout (dib : bytes) :
  Spec.accepted dib -> Spec.header_fits dib ->
  exists bfh,
    dib_to_bmp_file_bytes dib = Return (bfh ++ dib)
    /\ length bfh = 14%nat
    /\ bfh = [x42; x4d] ++ Spec.le32 (14 + len dib)
             ++ Spec.le16 0 ++ Spec.le16 0
             ++ Spec.le32 (Spec.pixel_offset dib)
    /\ Spec.u32le_at bfh 2 = 14 + len dib
    /\ Spec.u16le_at bfh 6 = 0
    /\ Spec.u16le_at bfh 8 = 0
    /\ Spec.u32le_at bfh 10 = Spec.pixel_offset dib.
Proof.
  intros Hacc Hfit. exists (Spec.file_header dib).
  pose proof (pixel_offset_lower dib Hacc) as Hlow.
  destruct Hfit as [Hsize Hoff].
  pose proof (file_header_size_field dib [] Hsize) as E2.
  assert (E10 : Spec.u32le_at (Spec.file_header dib ++ []) 10
                = Spec.pixel_offset dib)
    by (apply file_header_offset_field; lia).
  rewrite app_nil_r in E2, E10.
  split; [apply reconstructor_returns; [exact Hacc|now split]|].
  repeat split; assumption.
Qed.

Lemma file_header_layout_rgb24 :
  Spec.accepted Samples.dib_rgb24 /\ Spec.header_fits Samples.dib_rgb24
  /\ exists bfh,
       dib_to_bmp_file_bytes Samples.dib_rgb24
       = Return (bfh ++ Samples.dib_rgb24)
       /\ bfh = [x42; x4d; x3a; x00; x00; x00; x00; x00; x00; x00;
                 x36; x00; x00; x00].
Proof.
  assert (Ha : Spec.accepted Samples.dib_rgb24) by by_evaluation.
  assert (Hf : Spec.header_fits Samples.dib_rgb24) by by_evaluation.
  destruct (file_header_layout Samples.dib_rgb24 Ha Hf)
    as (bfh & E & _ & Hb & _).
  split; [exact Ha|]. split; [exact Hf|].
  exists bfh. split; [exact E|]. rewrite Hb. reflexivity.
Defined.

(** ** Failures *)

Section Failures.

Lemma reconstructor_raises (dib : bytes) :
  Spec.accepted dib -> ~ Spec.header_fits dib ->
  dib_to_bmp_file_bytes dib = Raise (struct_error ArgumentOutOfRange).
Proof.
  intros Hacc Hno.
  destruct (Z_le_gt_dec (Spec.pixel_offset dib) Spec.uint32_max) as [Hoff|Hoff].
  - assert (Hsize : Spec.uint32_max < 14 + len dib)
      by (apply Z.nle_gt; intros H; apply Hno; now split).
    rewrite reconstructor_accepted by exact Hacc.
    unfold pack_2sIHHI. rewrite pack_uint_out_of_range; [reflexivity|].
    change (2 ^ (8 * Z.of_nat 4)) with 4294967296.
    unfold Spec.uint32_max in Hsize. lia.
  - apply reconstructor_overflow; [exact Hacc|lia].
Qed.

Lemma header_fits_dec (dib : bytes) :
  {Spec.header_fits dib} + {~ Spec.header_fits dib}.
Proof.
  unfold Spec.header_fits.
  destruct (Z_le_gt_dec (14 + len dib) Spec.uint32_max);
    destruct (Z_le_gt_dec (Spec.pixel_offset dib) Spec.uint32_max);
    (left; split; assumption) || (right; intros [? ?]; lia).
Qed.

Lemma reconstructor_too_short (dib : bytes) :
  len dib < 40 -> dib_to_bmp_file_bytes dib = Raise (ValueError msg_too_small).
Proof.
  intros H. unfold dib_to_bmp_file_bytes.
  now rewrite first_check_fails.
Qed.

Lemma reconstructor_invalid_header (dib : bytes) :
  40 <= len dib ->
  Spec.header_size dib < 40 \/ len dib < Spec.header_size dib ->
  dib_to_bmp_file_bytes dib = Raise (ValueError msg_invalid_header).
Proof.
  intros Hlen Hbad. unfold dib_to_bmp_file_bytes.
  rewrite first_check_passes by exact Hlen.
  rewrite (unpack_from_I_ok dib 0) by (cbn; lia). cbn [bind].
  fold (Spec.header_size dib).
  replace ((Spec.header_size dib <? 40) || (len dib <? Spec.header_size dib))
    with true; [reflexivity|].
  symmetry. apply orb_true_iff.
  destruct Hbad as [H|H]; [left|right]; now apply Z.ltb_lt.
Qed.

(** Every way the function can end. *)
Lemma reconstructor_outcomes (dib : bytes) :
  (len dib < 40
   /\ dib_to_bmp_file_bytes dib = Raise (ValueError msg_too_small))
  \/ (40 <= len dib /\ ~ Spec.accepted dib
      /\ dib_to_bmp_file_bytes dib = Raise (ValueError msg_invalid_header))
  \/ (Spec.accepted dib /\ ~ Spec.header_fits dib
      /\ dib_to_bmp_file_bytes dib = Raise (struct_error ArgumentOutOfRange))
  \/ (Spec.accepted dib /\ Spec.header_fits dib
      /\ dib_to_bmp_file_bytes dib = Return (Spec.file_header dib ++ dib)).
Proof.
  destruct (Z_lt_ge_dec (len dib) 40) as [Hshort|Hlen].
  { left. split; [exact Hshort|now apply reconstructor_too_short]. }
  right.
  destruct (Z_lt_ge_dec (Spec.header_size dib) 40) as [Hlo|Hlo].
  { left. split; [lia|]. split; [intros (_ & H & _); lia|].
    apply reconstructor_invalid_header; [lia|now left]. }
  destruct (Z_lt_ge_dec (len dib) (Spec.header_size dib)) as [Hhi|Hhi].
  { left. split; [lia|]. split; [intros (_ & _ & H); lia|].
    apply reconstructor_invalid_header; [lia|now right]. }
  right.
  assert (Hacc : Spec.accepted dib) by (unfold Spec.accepted; lia).
  destruct (header_fits_dec dib) as [Hfit|Hno].
  - right. split; [exact Hacc|]. split; [exact Hfit|].
    now apply reconstructor_returns.
  - left. split; [exact Hacc|]. split; [exact Hno|].
    now apply reconstructor_raises.
Qed.

(** A palette that does not fit into the buffer is not rejected: the offset
    written then lies beyond the file size written next to it. *)
Lemma no_palette_bound_check (dib : bytes) :
  Spec.accepted dib -> Spec.header_fits dib ->
  Spec.bits_per_pixel dib <= 8 ->
  len dib < Spec.header_size dib + 4 * Spec.colors_used dib ->
  exists out,
    dib_to_bmp_file_bytes dib = Return out
    /\ len out = 14 + len dib
    /\ Spec.u32le_at out 2 = 14 + len dib
    /\ Spec.u32le_at out 10 = Spec.pixel_offset dib
    /\ 14 + len dib < Spec.u32le_at out 10.
Proof.
  intros Hacc Hfit Hb Hbig. exists (Spec.file_header dib ++ dib).
  pose proof (pixel_offset_lower dib Hacc) as Hlow.
  destruct Hfit as [Hsize Hoff].
  assert (E10 : Spec.u32le_at (Spec.file_header dib ++ dib) 10
                = Spec.pixel_offset dib)
    by (apply file_header_offset_field; lia).
  split; [apply reconstructor_returns; [exact Hacc|now split]|].
  split; [unfold len; rewrite length_app, file_header_length; lia|].
  split; [now apply file_header_size_field|].
  split; [exact E10|].
  rewrite E10. unfold Spec.pixel_offset, Spec.palette_bytes, Spec.palette_count.
  apply Z.leb_le in Hb. rewrite Hb.
  assert (Hu : Spec.colors_used dib <> 0).
  { intros H0. rewrite H0 in Hbig. destruct Hacc as (_ & _ & H). lia. }
  apply Z.eqb_neq in Hu. rewrite Hu.
  destruct (mask_bytes_cases (Spec.compression dib) (Spec.header_size dib));
    lia.
Qed.

End Failures.

(** C6. Every buffer that is empty or shorter than 40 bytes is refused with
    the [ValueError] of the first check, and nothing is returned. *)
Theorem too_short_rejected (dib : bytes) :
  dib = [] \/ len dib < 40 ->
  dib_to_bmp_file_bytes dib = Raise (ValueError msg_too_small)
  /\ forall out, dib_to_bmp_file_bytes dib <> Return out.
Proof.
  intros H.
  assert (Hshort : len dib < 40) by (destruct H as [->|H]; [cbn; lia|exact H]).
  rewrite reconstructor_too_short by exact Hshort.
  split; [reflexivity|]. intros out. discriminate.
Qed.

Lemma too_short_rejected_len39 :
  len Samples.dib_len39 < 40
  /\ dib_to_bmp_file_bytes Samples.dib_len39
     = Raise (ValueError msg_too_small).
Proof.
  assert (H : len Samples.dib_len39 < 40) by reflexivity.
  split; [exact H|].
  exact (proj1 (too_short_rejected Samples.dib_len39 (or_intror H))).
Defined.

(** C7. Every buffer of at least 40 bytes whose first four bytes, read as a
    little-endian unsigned integer, declare a header size below 40 or above
    the buffer length is refused with the [ValueError] of the second check;
    so is a declared size of 100 in a 50-byte buffer. *)
Theorem invalid_header_rejected (dib : bytes) :
  40 <= len dib ->
  Spec.header_size dib < 40 \/ len dib < Spec.header_size dib ->
  unpack_from_I dib 0 = Return (Spec.header_size dib)
  /\ dib_to_bmp_file_bytes dib = Raise (ValueError msg_invalid_header)
  /\ forall out, dib_to_bmp_file_bytes dib <> Return out.
Proof.
  intros Hlen Hbad.
  split; [apply unpack_from_I_ok; cbn; lia|].
  rewrite reconstructor_invalid_header by assumption.
  split; [reflexivity|]. intros out. discriminate.
Qed.

Lemma invalid_header_rejected_100_in_50 :
  len Samples.dib_declared100_len50 = 50
  /\ Spec.header_size Samples.dib_declared100_len50 = 100
  /\ dib_to_bmp_file_bytes Samples.dib_declared100_len50
     = Raise (ValueError msg_invalid_header).
Proof.
  split; [reflexivity|]. split; [reflexivity|].
  apply (invalid_header_rejected Samples.dib_declared100_len50).
  - by_evaluation.
  - right. reflexivity.
Defined.

(** C8. The function has a third way to end. On the 40-byte buffer with
    8 bits per pixel and colors-used = 0xffffffff both checks pass, the
    offset 14 + 40 + 4 * 4294967295 is outside the range of the [I] format,
    and [struct.pack] raises [struct.error]: the caller gets neither an
    output nor a [ValueError]. *)
Theorem struct_error_escapes :
  Spec.accepted Samples.dib_pal8_used_all
  /\ Spec.pixel_offset Samples.dib_pal8_used_all = 17179869234
  /\ dib_to_bmp_file_bytes Samples.dib_pal8_used_all
     = Raise (struct_error ArgumentOutOfRange)
  /\ (forall msg,
         dib_to_bmp_file_bytes Samples.dib_pal8_used_all
         <> Raise (ValueError msg))
  /\ (forall out,
         dib_to_bmp_file_bytes Samples.dib_pal8_used_all <> Return out).
Proof.
  assert (Ha : Spec.accepted Samples.dib_pal8_used_all) by by_evaluation.
  assert (Hoff : Spec.pixel_offset Samples.dib_pal8_used_all = 17179869234)
    by reflexivity.
  assert (E : dib_to_bmp_file_bytes Samples.dib_pal8_used_all
              = Raise (struct_error ArgumentOutOfRange)).
  { apply reconstructor_raises; [exact Ha|].
    intros [_ H]. rewrite Hoff in H. unfold Spec.uint32_max in H. lia. }
  rewrite E. repeat split; try assumption; intros; discriminate.
Qed.

(** ** Reads stay inside the buffer *)

(** C9, as stated, fails in its conclusion: on the accepted 40-byte buffer
    with 2 bits per pixel and colors-used = 0x80000000 all four reads stay
    inside the buffer and succeed, yet the function is not total there: the
    offset 54 + 2^33 is outside the range of the [I] format, [struct.pack]
    raises, and nothing is returned. *)
Lemma reads_in_bounds_yet_no_output :
  Spec.accepted Samples.dib_pal2_used_2p31
  /\ unpack_from_I Samples.dib_pal2_used_2p31 0 = Return 40
  /\ unpack_from_H Samples.dib_pal2_used_2p31 14 = Return 2
  /\ unpack_from_I Samples.dib_pal2_used_2p31 16 = Return 0
  /\ unpack_from_I Samples.dib_pal2_used_2p31 32 = Return 2147483648
  /\ ~ (exists out,
          dib_to_bmp_file_bytes Samples.dib_pal2_used_2p31 = Return out).
Proof.
  split; [by_evaluation|]. repeat (split; [reflexivity|]).
  intros (out & E). vm_compute in E. discriminate E.
Qed.

(** C9, amended. In a buffer of at least 40 bytes each of the four fields
    read, 4 bytes at 0, 2 bytes at 14, 4 bytes at 16 and 4 bytes at 32, ends
    inside the buffer; each [unpack_from] call returns its field and the
    function never ends in the buffer-too-small error, so no out-of-bounds
    read is reachable. On every accepted buffer whose file size and
    pixel-data offset fit an unsigned 32-bit field the function returns its
    output, the file header followed by the input. *)
Theorem header_reads_in_bounds (dib : bytes) :
  40 <= len dib ->
  ((0 + 4 <= length dib)%nat /\ (14 + 2 <= length dib)%nat
   /\ (16 + 4 <= length dib)%nat /\ (32 + 4 <= length dib)%nat)
  /\ unpack_from_I dib 0 = Return (Spec.header_size dib)
  /\ unpack_from_H dib 14 = Return (Spec.bits_per_pixel dib)
  /\ unpack_from_I dib 16 = Return (Spec.compression dib)
  /\ unpack_from_I dib 32 = Return (Spec.colors_used dib)
  /\ dib_to_bmp_file_bytes dib <> Raise (struct_error BufferTooSmall)
  /\ (Spec.accepted dib -> Spec.header_fits dib ->
      exists out,
        dib_to_bmp_file_bytes dib = Return out
        /\ out = Spec.file_header dib ++ dib).
Proof.
  intros Hlen.
  split; [unfold len in Hlen; lia|].
  split; [apply unpack_from_I_ok; cbn; lia|].
  split; [apply unpack_from_H_ok; cbn; lia|].
  split; [apply unpack_from_I_ok; cbn; lia|].
  split; [apply unpack_from_I_ok; cbn; lia|].
  split.
  - destruct (reconstructor_outcomes dib)
      as [(_ & E)|[(_ & _ & E)|[(_ & _ & E)|(_ & _ & E)]]];
      rewrite E; discriminate.
  - intros Ha Hf. exists (Spec.file_header dib ++ dib).
    split; [now apply reconstructor_returns|reflexivity].
Qed.

Lemma header_reads_in_bounds_rgb24 :
  40 <= len Samples.dib_rgb24
  /\ Spec.accepted Samples.dib_rgb24 /\ Spec.header_fits Samples.dib_rgb24
  /\ unpack_from_I Samples.dib_rgb24 0 = Return 40
  /\ unpack_from_H Samples.dib_rgb24 14 = Return 24
  /\ dib_to_bmp_file_bytes Samples.dib_rgb24
     <> Raise (struct_error BufferTooSmall)
  /\ exists out, dib_to_bmp_file_bytes Samples.dib_rgb24 = Return out.
Proof.
  assert (H : 40 <= len Samples.dib_rgb24) by by_evaluation.
  assert (Ha : Spec.accepted Samples.dib_rgb24) by by_evaluation.
  assert (Hf : Spec.header_fits Samples.dib_rgb24) by by_evaluation.
  destruct (header_reads_in_bounds Samples.dib_rgb24 H)
    as (_ & E0 & E14 & _ & _ & Hno & Hret).
  destruct (Hret Ha Hf) as (out & E & _).
  split; [exact H|]. split; [exact Ha|]. split; [exact Hf|].
  split; [exact E0|]. split; [exact E14|]. split; [exact Hno|].
  exists out. exact E.
Defined.

(** ** The offset is not checked against the file *)

(** C10. Colors-used is never compared with the buffer length: the 40-byte
    buffer with 8 bits per pixel and colors-used = 1000 is accepted, and in
    the file returned the pixel-data offset field holds 4054 while the file
    size field holds 54, the length of the output. *)
Theorem offset_can_point_past_end :
  exists dib out,
    Spec.accepted dib
    /\ Spec.header_size dib = 40 /\ len dib = 40
    /\ Spec.bits_per_pixel dib <= 8
    /\ Spec.colors_used dib = 1000
    /\ dib_to_bmp_file_bytes dib = Return out
    /\ len out = 14 + len dib
    /\ Spec.u32le_at out 2 = 14 + len dib
    /\ Spec.u32le_at out 10 = 4054
    /\ 14 + len dib < Spec.u32le_at out 10.
Proof.
  assert (Ha : Spec.accepted Samples.dib_pal8_used1000) by by_evaluation.
  assert (Hf : Spec.header_fits Samples.dib_pal8_used1000) by by_evaluation.
  destruct (no_palette_bound_check Samples.dib_pal8_used1000 Ha Hf)
    as (out & E & Hlen & H2 & H10 & Hgt); [by_evaluation|reflexivity|].
  exists Samples.dib_pal8_used1000, out.
  split; [exact Ha|]. split; [reflexivity|]. split; [reflexivity|].
  split; [by_evaluation|]. split; [reflexivity|]. split; [exact E|].
  split; [exact Hlen|]. split; [exact H2|]. split; [exact H10|exact Hgt].
Qed.

(** ** Further properties of [dib_to_bmp_file_bytes] *)

Section MoreReconstructor.

Lemma returned_value (dib out : bytes) :
  dib_to_bmp_file_bytes dib = Return out ->
  Spec.accepted dib /\ Spec.header_fits dib
  /\ out = Spec.file_header dib ++ dib.
Proof.
  intros E.
  destruct (reconstructor_outcomes dib)
    as [(_ & E')|[(_ & _ & E')|[(_ & _ & E')|(Ha & Hf & E')]]];
    rewrite E' in E; try discriminate E.
  injection E as <-. auto.
Qed.

Lemma byte_at_firstn (n : nat) (d1 d2 : bytes) (i : nat) :
  firstn n d1 = firstn n d2 -> (i < n)%nat ->
  Spec.byte_at d1 i = Spec.byte_at d2 i.
Proof.
  intros E Hi. unfold Spec.byte_at.
  assert (H : forall d, nth i d x00 = nth i (firstn n d) x00).
  { intros d. rewrite nth_firstn.
    destruct (Nat.ltb_spec i n); [reflexivity|lia]. }
  now rewrite (H d1), (H d2), E.
Qed.

Lemma u32le_at_firstn (n : nat) (d1 d2 : bytes) (off : nat) :
  firstn n d1 = firstn n d2 -> (off + 4 <= n)%nat ->
  Spec.u32le_at d1 off = Spec.u32le_at d2 off.
Proof.
  intros E H. unfold Spec.u32le_at.
  now rewrite !(byte_at_firstn n d1 d2) by (assumption || lia).
Qed.

Lemma u16le_at_firstn (n : nat) (d1 d2 : bytes) (off : nat) :
  firstn n d1 = firstn n d2 -> (off + 2 <= n)%nat ->
  Spec.u16le_at d1 off = Spec.u16le_at d2 off.
Proof.
  intros E H. unfold Spec.u16le_at.
  now rewrite !(byte_at_firstn n d1 d2) by (assumption || lia).
Qed.

Lemma unpack_from_I_shift (pre buf : bytes) (off : nat) :
  unpack_from_I (pre ++ buf) (length pre + off) = unpack_from_I buf off.
Proof.
  unfold unpack_from_I, unpack_from_uint.
  rewrite length_app, skipn_app.
  replace (length pre + off - length pre)%nat with off by lia.
  rewrite skipn_all2 by lia. cbn [app].
  destruct (Nat.leb_spec (off + 4) (length buf));
    destruct (Nat.leb_spec (length pre + off + 4) (length pre + length buf));
    (reflexivity || lia).
Qed.

End MoreReconstructor.

(** X1. The four ways [dib_to_bmp_file_bytes] ends, each with its exact
    condition: it returns exactly on the buffers of at least 40 bytes whose
    declared header size lies between 40 and the length and whose file size
    and offset fit 32 bits, and then it returns the file header followed by
    the input; the first [ValueError] exactly below 40 bytes; the second
    exactly for a declared size below 40 or above the length;
    [struct.error] exactly when both checks pass and one packed integer
    exceeds 2^32 - 1. *)
Theorem outcome_characterised (dib : bytes) :
  ((exists out, dib_to_bmp_file_bytes dib = Return out)
   <-> Spec.accepted dib /\ Spec.header_fits dib)
  /\ (forall out, dib_to_bmp_file_bytes dib = Return out ->
                  out = Spec.file_header dib ++ dib)
  /\ (dib_to_bmp_file_bytes dib = Raise (ValueError msg_too_small)
      <-> len dib < 40)
  /\ (dib_to_bmp_file_bytes dib = Raise (ValueError msg_invalid_header)
      <-> 40 <= len dib
          /\ (Spec.header_size dib < 40 \/ len dib < Spec.header_size dib))
  /\ (dib_to_bmp_file_bytes dib = Raise (struct_error ArgumentOutOfRange)
      <-> Spec.accepted dib
          /\ (Spec.uint32_max < 14 + len dib
              \/ Spec.uint32_max < Spec.pixel_offset dib)).
Proof.
  split.
  { split.
    - intros [out E]. apply returned_value in E. tauto.
    - intros [Ha Hf]. eexists. now apply reconstructor_returns. }
  split; [intros out E; now apply returned_value in E|].
  unfold Spec.accepted, Spec.header_fits.
  destruct (reconstructor_outcomes dib)
    as [(H & E)|[(H & Hn & E)|[(Ha & Hn & E)|(Ha & Hf & E)]]];
    rewrite E; unfold Spec.accepted, Spec.header_fits in *;
    repeat split; intros; try discriminate; try lia.
Qed.

(** X2. Acceptance and the file header depend only on the buffer length and
    the first 36 bytes: two buffers of equal length that agree there either
    raise the same exception or return files with the same 14-byte header.
    Pixel data never reaches the header. *)
Theorem header_ignores_pixel_data (d1 d2 : bytes) :
  len d1 = len d2 -> firstn 36 d1 = firstn 36 d2 ->
  match dib_to_bmp_file_bytes d1, dib_to_bmp_file_bytes d2 with
  | Return o1, Return o2 => firstn 14 o1 = firstn 14 o2
  | Raise e1, Raise e2 => e1 = e2
  | _, _ => False
  end.
Proof.
  intros Hlen Hpre.
  assert (Hs : Spec.header_size d1 = Spec.header_size d2)
    by (apply (u32le_at_firstn 36); [exact Hpre|lia]).
  assert (Hoff : Spec.pixel_offset d1 = Spec.pixel_offset d2).
  { unfold Spec.pixel_offset, Spec.bits_per_pixel, Spec.compression,
      Spec.colors_used. rewrite Hs.
    rewrite (u16le_at_firstn 36 d1 d2 14), (u32le_at_firstn 36 d1 d2 16),
      (u32le_at_firstn 36 d1 d2 32) by (assumption || lia).
    reflexivity. }
  assert (Hacc : Spec.accepted d1 -> Spec.accepted d2)
    by (unfold Spec.accepted; rewrite Hs, Hlen; tauto).
  assert (Hhdr : Spec.file_header d1 = Spec.file_header d2)
    by (unfold Spec.file_header; now rewrite Hlen, Hoff).
  destruct (reconstructor_outcomes d1)
    as [(H & E)|[(H & Hn & E)|[(Ha & Hn & E)|(Ha & Hf & E)]]]; rewrite E.
  - rewrite reconstructor_too_short by lia. reflexivity.
  - rewrite reconstructor_invalid_header; [reflexivity|lia|].
    unfold Spec.accepted in Hn. lia.
  - rewrite reconstructor_raises; [reflexivity|now apply Hacc|].
    unfold Spec.header_fits in *. rewrite <- Hlen, <- Hoff. exact Hn.
  - rewrite reconstructor_returns; [|now apply Hacc|].
    + rewrite Hhdr. reflexivity.
    + unfold Spec.header_fits in *. rewrite <- Hlen, <- Hoff. exact Hf.
Qed.

Lemma header_ignores_pixel_data_rgb24 :
  Samples.dib_rgb24 <> Samples.dib_rgb24_other
  /\ match dib_to_bmp_file_bytes Samples.dib_rgb24,
           dib_to_bmp_file_bytes Samples.dib_rgb24_other with
     | Return o1, Return o2 => firstn 14 o1 = firstn 14 o2
     | Raise e1, Raise e2 => e1 = e2
     | _, _ => False
     end.
Proof.
  split; [intro H; discriminate H|].
  apply (header_ignores_pixel_data Samples.dib_rgb24 Samples.dib_rgb24_other);
    reflexivity.
Defined.

(** X3. In a returned file the pixel-data offset field points at or before
    the end of the file exactly when the palette and mask sizes fit into
    what the buffer holds after its declared header. Above 8 bits per pixel
    and without the 12 mask bytes the offset is 14 + declared header size
    and always lies inside the file. *)
Theorem offset_inside_file_iff (dib out : bytes) :
  dib_to_bmp_file_bytes dib = Return out ->
  (Spec.u32le_at out 10 <= len out
   <-> palette_size
         (palette_entries (Spec.bits_per_pixel dib) (Spec.colors_used dib))
       + masks_size (Spec.compression dib) (Spec.header_size dib)
       <= len dib - Spec.header_size dib)
  /\ (8 < Spec.bits_per_pixel dib ->
      masks_size (Spec.compression dib) (Spec.header_size dib) = 0 ->
      Spec.u32le_at out 10 = 14 + Spec.header_size dib
      /\ Spec.u32le_at out 10 <= len out).
Proof.
  intros E. apply returned_value in E. destruct E as (Ha & [Hsz Hoff] & ->).
  pose proof (pixel_offset_lower dib Ha) as Hlow.
  rewrite file_header_offset_field by lia.
  assert (Hlen : len (Spec.file_header dib ++ dib) = 14 + len dib)
    by (unfold len; rewrite length_app, file_header_length; lia).
  rewrite Hlen, palette_size_rule, masks_size_rule.
  unfold Spec.pixel_offset. split; [lia|].
  intros Hb Hm. rewrite Hm. unfold Spec.palette_bytes.
  apply Z.leb_gt in Hb. rewrite Hb. destruct Ha as (_ & _ & Hhi). lia.
Qed.

Lemma offset_inside_file_iff_rgb24 :
  exists out,
    dib_to_bmp_file_bytes Samples.dib_rgb24 = Return out
    /\ Spec.u32le_at out 10 = 54 /\ Spec.u32le_at out 10 <= len out.
Proof.
  exists (Spec.file_header Samples.dib_rgb24 ++ Samples.dib_rgb24).
  assert (E : dib_to_bmp_file_bytes Samples.dib_rgb24
              = Return (Spec.file_header Samples.dib_rgb24
                        ++ Samples.dib_rgb24)) by reflexivity.
  split; [exact E|].
  apply (proj2 (offset_inside_file_iff Samples.dib_rgb24 _ E));
    by_evaluation.
Defined.

(** X4. A returned file is not accepted as input again while it is shorter
    than 65536 bytes: its first four bytes are [BM] and the low half of the
    file size, which read as a header size are larger than the file, so the
    second call raises the invalid-header [ValueError]. *)
Theorem wrapping_twice_rejected (dib out : bytes) :
  dib_to_bmp_file_bytes dib = Return out -> len out < 65536 ->
  dib_to_bmp_file_bytes out = Raise (ValueError msg_invalid_header).
Proof.
  intros E Hsmall. apply returned_value in E.
  destruct E as (Ha & [Hsz Hoff] & ->).
  assert (Hlen : len (Spec.file_header dib ++ dib) = 14 + len dib)
    by (unfold len; rewrite length_app, file_header_length; lia).
  rewrite Hlen in Hsmall. destruct Ha as (H40 & _ & _).
  apply reconstructor_invalid_header; [lia|]. right. rewrite Hlen.
  unfold Spec.header_size, Spec.u32le_at, Spec.byte_at, Spec.file_header, BM,
    Spec.le32, Spec.le16.
  cbn [app nth Nat.add]. unfold Spec.le_byte. rewrite !byte_val_of_Z.
  change (byte_val x42) with 66. change (byte_val x4d) with 77.
  change (2 ^ (8 * 0)) with 1. change (2 ^ (8 * 1)) with 256.
  change (2 ^ 8) with 256. change (2 ^ 16) with 65536.
  change (2 ^ 24) with 16777216.
  rewrite Z.div_1_r.
  set (fs := 14 + len dib) in *.
  pose proof (Z.div_mod fs 256 ltac:(lia)) as Hdm.
  pose proof (Z.mod_pos_bound fs 256 ltac:(lia)) as Hm.
  assert (Hq : 0 <= fs / 256 < 256)
    by (split; [apply Z.div_pos; lia|apply Z.div_lt_upper_bound; lia]).
  rewrite (Z.mod_small (fs / 256) 256) by exact Hq. lia.
Qed.

Lemma wrapping_twice_rejected_rgb24 :
  exists out,
    dib_to_bmp_file_bytes Samples.dib_rgb24 = Return out
    /\ dib_to_bmp_file_bytes out = Raise (ValueError msg_invalid_header).
Proof.
  exists (Spec.file_header Samples.dib_rgb24 ++ Samples.dib_rgb24).
  assert (E : dib_to_bmp_file_bytes Samples.dib_rgb24
              = Return (Spec.file_header Samples.dib_rgb24
                        ++ Samples.dib_rgb24)) by reflexivity.
  split; [exact E|].
  apply (wrapping_twice_rejected Samples.dib_rgb24 _ E). reflexivity.
Defined.

(** X5. Reading a returned file back with [struct.unpack_from]: the size
    field at offset 2 is the true length of the returned bytes, the two
    reserved fields are 0, the field at offset 10 is the offset the function
    computed, and every 32-bit field of the input is found 14 bytes
    further on. *)
Theorem header_reads_back (dib out : bytes) :
  dib_to_bmp_file_bytes dib = Return out ->
  unpack_from_I out 2 = Return (len out)
  /\ unpack_from_H out 6 = Return 0
  /\ unpack_from_H out 8 = Return 0
  /\ unpack_from_I out 10
     = Return (off_bits (Spec.header_size dib)
                 (palette_size
                    (palette_entries (Spec.bits_per_pixel dib)
                       (Spec.colors_used dib)))
                 (masks_size (Spec.compression dib) (Spec.header_size dib)))
  /\ (forall off, unpack_from_I out (14 + off) = unpack_from_I dib off).
Proof.
  intros E. apply returned_value in E. destruct E as (Ha & [Hsz Hoff] & ->).
  pose proof (pixel_offset_lower dib Ha) as Hlow.
  assert (Hlen : len (Spec.file_header dib ++ dib) = 14 + len dib)
    by (unfold len; rewrite length_app, file_header_length; lia).
  destruct Ha as (H40 & _ & _).
  split.
  { rewrite unpack_from_I_ok by (rewrite Hlen; unfold len in *; lia).
    now rewrite file_header_size_field, Hlen. }
  split.
  { rewrite unpack_from_H_ok by (rewrite Hlen; unfold len in *; lia).
    now rewrite (proj1 (file_header_reserved dib dib)). }
  split.
  { rewrite unpack_from_H_ok by (rewrite Hlen; unfold len in *; lia).
    now rewrite (proj2 (file_header_reserved dib dib)). }
  split.
  { rewrite unpack_from_I_ok by (rewrite Hlen; unfold len in *; lia).
    rewrite file_header_offset_field by lia.
    unfold off_bits, Spec.pixel_offset.
    now rewrite palette_size_rule, masks_size_rule. }
  intros off. apply (unpack_from_I_shift (Spec.file_header dib) dib off).
Qed.

Lemma header_reads_back_pal8 :
  exists out,
    dib_to_bmp_file_bytes Samples.dib_pal8 = Return out
    /\ unpack_from_I out 2 = Return 54
    /\ unpack_from_I out 10 = Return 1078
    /\ unpack_from_I out 14 = Return 40.
Proof.
  exists (Spec.file_header Samples.dib_pal8 ++ Samples.dib_pal8).
  assert (E : dib_to_bmp_file_bytes Samples.dib_pal8
              = Return (Spec.file_header Samples.dib_pal8
                        ++ Samples.dib_pal8)) by reflexivity.
  destruct (header_reads_back Samples.dib_pal8 _ E)
    as (H2 & _ & _ & H10 & H14).
  split; [exact E|]. split; [exact H2|]. split; [exact H10|].
  exact (H14 0%nat).
Defined.

(** ** Properties of the clipboard read and of the save *)

(** Case analysis on the answers that decide a run, in the order the code
    asks for them. *)
Ltac split_run :=
  unfold get_clipboard_dib_bytes, try_finally, perform, io_bind, io_ret;
  repeat match goal with
    | |- context [if negb ?b then _ else _] =>
        destruct b eqn:?; cbn [negb]
    | |- context [if nonzero ?z then _ else _] =>
        destruct (nonzero z) eqn:?
    | |- context [match GetClipboardData ?os ?f with _ => _ end] =>
        destruct (GetClipboardData os f) eqn:?
    | |- context [match GlobalLock ?os ?h with _ => _ end] =>
        destruct (GlobalLock os h) eqn:?
    end.

Section RunFacts.

Lemma nonzero_true (z : Z) : nonzero z = true <-> z <> 0.
Proof.
  unfold nonzero. rewrite negb_true_iff. apply Z.eqb_neq.
Qed.


Lemma follow_app (t1 t2 : list call) :
  forall ph,
    follow ph (t1 ++ t2)
    = match follow ph t1 with
      | Some ph' => follow ph' t2
      | None => None
      end.
Proof.
  induction t1 as [|c t1 IH]; intros ph; cbn [app follow]; [reflexivity|].
  destruct (step ph c); [apply IH|reflexivity].
Qed.

(** Where a clipboard read ends. *)
Lemma clipboard_read_phase (os : answers) :
  follow Probing (fst (get_clipboard_dib_bytes os))
  = Some (if os_name_is_nt os
             && (nonzero (IsClipboardFormatAvailable os CF_DIBV5)
                 || nonzero (IsClipboardFormatAvailable os CF_DIB))
          then if nonzero (OpenClipboard os) then Closed else Refused
          else Probing).
Proof.
  split_run; cbn.
  all: repeat match goal with H : nonzero _ = _ |- _ => rewrite H end; cbn.
  all: rewrite ?Z.eqb_refl; reflexivity.
Qed.

Lemma clipboard_read_phase_data (os : answers) (d : bytes) :
  snd (get_clipboard_dib_bytes os) = Some d ->
  follow Probing (fst (get_clipboard_dib_bytes os)) = Some Closed.
Proof.
  split_run; cbn [snd]; intros E; try discriminate E; cbn.
  all: repeat match goal with H : nonzero _ = _ |- _ => rewrite H end; cbn.
  all: rewrite ?Z.eqb_refl; reflexivity.
Qed.

Lemma clipboard_read_leaves_disk (os : answers) (c : call) :
  In c (fst (get_clipboard_dib_bytes os)) -> touches_disk c = false.
Proof.
  split_run; cbn; intros H;
    repeat (destruct H as [<-|H]; [reflexivity|]); contradiction.
Qed.

(** The save, once the clipboard has been read. *)
Lemma save_run (os : answers) :
  save_clipboard_image_to_disk os
  = (let (t, dib) := get_clipboard_dib_bytes os in
     match dib with
     | None => (t, Done ""%string)
     | Some b =>
         if negb (truthy b) then (t, Done ""%string)
         else
           match dib_to_bmp_file_bytes b with
           | Raise e => (t, Raised (from_reconstructor e))
           | Return bmp_bytes =>
               if makedirs_raises os
               then (t ++ [makedirs_ (STORAGE_DIR os) false], Raised OSError)
               else if open_raises os
               then (t ++ [makedirs_ (STORAGE_DIR os) true;
                           open_wb_ (unique_bmp_path os) false],
                     Raised OSError)
               else
                 match write_raises os with
                 | None =>
                     (t ++ [makedirs_ (STORAGE_DIR os) true;
                            open_wb_ (unique_bmp_path os) true;
                            write_ (unique_bmp_path os) bmp_bytes true],
                      Done (unique_bmp_path os))
                 | Some n =>
                     (t ++ [makedirs_ (STORAGE_DIR os) true;
                            open_wb_ (unique_bmp_path os) true;
                            write_ (unique_bmp_path os)
                              (firstn n bmp_bytes) false],
                      Raised OSError)
                 end
           end
     end).
Proof.
  unfold save_clipboard_image_to_disk.
  destruct (get_clipboard_dib_bytes os) as [t [b|]];
    unfold io_bind at 1, io_ret, falsy; [|now rewrite app_nil_r].
  destruct (negb (truthy b)); [now rewrite app_nil_r|].
  destruct (dib_to_bmp_file_bytes b); [|now rewrite app_nil_r].
  unfold make_unique_bmp_path, ensure_storage_dir, open_and_write, io_try,
    io_bind, io_ret, perform.
  destruct (makedirs_raises os); [reflexivity|].
  destruct (open_raises os); [reflexivity|].
  destruct (write_raises os); reflexivity.
Qed.

End RunFacts.

(** X6. Whatever the system answers, every run of
    [get_clipboard_dib_bytes] and of [save_clipboard_image_to_disk] passes
    the checker [step] from its first phase. The clipboard read ends with
    the clipboard closed again exactly when [OpenClipboard] was called and
    succeeded, ends refused when it was called and failed, and otherwise
    has not gone beyond asking for formats. The save ends in a settled
    phase: the clipboard is not left open, no handle locked, and no file
    left opened without its write. *)
Theorem clipboard_rules_kept (os : answers) :
  follow Probing (fst (get_clipboard_dib_bytes os))
  = Some (if os_name_is_nt os
             && (nonzero (IsClipboardFormatAvailable os CF_DIBV5)
                 || nonzero (IsClipboardFormatAvailable os CF_DIB))
          then if nonzero (OpenClipboard os) then Closed else Refused
          else Probing)
  /\ exists ph,
       follow Probing (fst (save_clipboard_image_to_disk os)) = Some ph
       /\ settled ph = true.
Proof.
  pose proof (clipboard_read_phase os) as Hread.
  pose proof (clipboard_read_phase_data os) as Hdata.
  split; [exact Hread|].
  rewrite save_run.
  destruct (get_clipboard_dib_bytes os) as [t [b|]]; cbn [fst snd] in *.
  - specialize (Hdata b eq_refl).
    destruct (negb (truthy b)); [exists Closed; now split|].
    destruct (dib_to_bmp_file_bytes b); [|exists Closed; now split].
    exists Finished. split; [|reflexivity].
    destruct (makedirs_raises os); [|destruct (open_raises os);
                                     [|destruct (write_raises os)]];
      cbn [fst]; rewrite follow_app, Hdata; cbn;
      rewrite ?String.eqb_refl; reflexivity.
  - eexists. split; [exact Hread|].
    destruct (os_name_is_nt os && _); [|reflexivity].
    destruct (nonzero (OpenClipboard os)); reflexivity.
Qed.


(** X8. Once CF_DIBV5 is announced, CF_DIB is never consulted: the run asks
    neither whether CF_DIB is available nor for its data, and when the
    CF_DIBV5 handle is NULL the result is [None] even if CF_DIB data are
    there. *)
Theorem no_fallback_to_dib (os : answers) :
  IsClipboardFormatAvailable os CF_DIBV5 <> 0 ->
  (forall r, ~ In (IsClipboardFormatAvailable_ CF_DIB r)
                  (fst (get_clipboard_dib_bytes os)))
  /\ (forall h, ~ In (GetClipboardData_ CF_DIB h)
                     (fst (get_clipboard_dib_bytes os)))
  /\ (GetClipboardData os CF_DIBV5 = None ->
      snd (get_clipboard_dib_bytes os) = None).
Proof.
  intros H5. apply nonzero_true in H5.
  split_run; try congruence; cbn [fst snd].
  all: repeat split; try reflexivity; try congruence; intros x Hin; cbn in Hin;
    repeat (destruct Hin as [Hin|Hin]; [discriminate Hin|]); exact Hin.
Qed.

Lemma no_fallback_to_dib_run :
  GetClipboardData (Runs.v5_without_data Samples.dib_rgb24) CF_DIB
  = Some 4096
  /\ snd (get_clipboard_dib_bytes (Runs.v5_without_data Samples.dib_rgb24))
     = None.
Proof.
  split; [reflexivity|].
  apply (no_fallback_to_dib (Runs.v5_without_data Samples.dib_rgb24)).
  - intro H; discriminate H.
  - reflexivity.
Defined.


(** The checker refuses a disk call before the clipboard was opened and
    closed, a clipboard call after the close, and a second open. *)
Lemma follow_refusals :
  follow Probing [makedirs_ "d" true] = None
  /\ follow Probing
       [OpenClipboard_ 1; CloseClipboard_; IsClipboardFormatAvailable_ 8 1]
     = None
  /\ follow Probing [OpenClipboard_ 1; CloseClipboard_; OpenClipboard_ 1]
     = None
  /\ follow Probing [OpenClipboard_ 1; write_ "p" [] true; CloseClipboard_]
     = None
  /\ follow Probing [OpenClipboard_ 1; GlobalLock_ 5 (Some 9); CloseClipboard_]
     = None.
Proof. repeat split. Qed.

(** X9. What [save_clipboard_image_to_disk] does with what the clipboard
    read gave it. [None] or an empty buffer: it returns the empty string.
    A buffer the reconstructor refuses: its exception reaches the caller,
    and no call is made after the clipboard read. A buffer the reconstructor
    converts: the storage directory is made, the file is opened and the
    file header followed by the buffer is written, and the path is
    returned; when [os.makedirs], [open] or the write raises [OSError] the
    run stops at that call with [OSError], and after a failing write the
    file holds a leading part of the data. *)
Theorem save_outcomes (os : answers) (dib : option bytes) :
  snd (get_clipboard_dib_bytes os) = dib ->
  match dib with
  | None =>
      save_clipboard_image_to_disk os
      = (fst (get_clipboard_dib_bytes os), Done ""%string)
  | Some b =>
      (b = [] ->
       save_clipboard_image_to_disk os
       = (fst (get_clipboard_dib_bytes os), Done ""%string))
      /\ (b <> [] -> len b < 40 ->
          save_clipboard_image_to_disk os
          = (fst (get_clipboard_dib_bytes os),
             Raised (from_reconstructor (ValueError msg_too_small))))
      /\ (40 <= len b -> ~ Spec.accepted b ->
          save_clipboard_image_to_disk os
          = (fst (get_clipboard_dib_bytes os),
             Raised (from_reconstructor (ValueError msg_invalid_header))))
      /\ (Spec.accepted b -> ~ Spec.header_fits b ->
          save_clipboard_image_to_disk os
          = (fst (get_clipboard_dib_bytes os),
             Raised (from_reconstructor (struct_error ArgumentOutOfRange))))
      /\ (Spec.accepted b -> Spec.header_fits b ->
          (makedirs_raises os = true ->
           save_clipboard_image_to_disk os
           = (fst (get_clipboard_dib_bytes os)
              ++ [makedirs_ (STORAGE_DIR os) false],
              Raised OSError))
          /\ (makedirs_raises os = false -> open_raises os = true ->
              save_clipboard_image_to_disk os
              = (fst (get_clipboard_dib_bytes os)
                 ++ [makedirs_ (STORAGE_DIR os) true;
                     open_wb_ (unique_bmp_path os) false],
                 Raised OSError))
          /\ (forall n,
                 makedirs_raises os = false -> open_raises os = false ->
                 write_raises os = Some n ->
                 save_clipboard_image_to_disk os
                 = (fst (get_clipboard_dib_bytes os)
                    ++ [makedirs_ (STORAGE_DIR os) true;
                        open_wb_ (unique_bmp_path os) true;
                        write_ (unique_bmp_path os)
                          (firstn n (Spec.file_header b ++ b)) false],
                    Raised OSError))
          /\ (makedirs_raises os = false -> open_raises os = false ->
              write_raises os = None ->
              save_clipboard_image_to_disk os
              = (fst (get_clipboard_dib_bytes os)
                 ++ [makedirs_ (STORAGE_DIR os) true;
                     open_wb_ (unique_bmp_path os) true;
                     write_ (unique_bmp_path os)
                       (Spec.file_header b ++ b) true],
                 Done (unique_bmp_path os))))
  end.
Proof.
  intros E. rewrite save_run.
  destruct (get_clipboard_dib_bytes os) as [t d]. cbn [fst snd] in *. subst d.
  destruct dib as [b|]; [|reflexivity].
  assert (Hne : b <> [] -> negb (truthy b) = false)
    by (destruct b; [congruence|reflexivity]).
  split; [intros ->; reflexivity|].
  split.
  { intros Hb Hlen. rewrite Hne by exact Hb.
    now rewrite reconstructor_too_short. }
  assert (H40 : 40 <= len b -> b <> [])
    by (intros H ->; cbn in H; lia).
  split.
  { intros Hlen Hno. rewrite Hne by auto.
    rewrite reconstructor_invalid_header; [reflexivity|exact Hlen|].
    unfold Spec.accepted in Hno. lia. }
  split.
  { intros Ha Hno. rewrite Hne by (apply H40, Ha).
    now rewrite reconstructor_raises. }
  intros Ha Hf. rewrite Hne by (apply H40, Ha).
  rewrite reconstructor_returns by assumption.
  split; [intros ->; reflexivity|].
  split; [intros -> ->; reflexivity|].
  split; [intros n -> -> ->; reflexivity|].
  intros -> -> ->; reflexivity.
Qed.

Lemma save_outcomes_two_bytes :
  snd (get_clipboard_dib_bytes (Runs.with_dib [x01; x02])) = Some [x01; x02]
  /\ snd (save_clipboard_image_to_disk (Runs.with_dib [x01; x02]))
     = Raised (from_reconstructor (ValueError msg_too_small)).
Proof.
  assert (E : snd (get_clipboard_dib_bytes (Runs.with_dib [x01; x02]))
              = Some [x01; x02]) by reflexivity.
  split; [exact E|].
  destruct (save_outcomes (Runs.with_dib [x01; x02]) _ E)
    as (_ & Hshort & _).
  rewrite Hshort; [reflexivity|intro H; discriminate H|reflexivity].
Defined.

(** X10. [save_clipboard_image_to_disk] touches the disk only after the
    reconstructor has converted the buffer: if its run makes the directory,
    opens a file or writes, then the clipboard read returned a buffer that
    passes both checks and whose header fits; the directory is the storage
    directory and the file the one path built for this run. A write that
    succeeded wrote the file header followed by that buffer, and the run
    returns the path; a write that raised left a leading part of these
    bytes, and the run ends in [OSError]. Runs in which the clipboard read
    gives no buffer, an empty one, or one the reconstructor refuses make no
    such call. *)
Theorem disk_touched_only_after_conversion (os : answers) (c : call) :
  In c (fst (save_clipboard_image_to_disk os)) ->
  touches_disk c = true ->
  exists b,
    snd (get_clipboard_dib_bytes os) = Some b
    /\ Spec.accepted b /\ Spec.header_fits b
    /\ (c = makedirs_ (STORAGE_DIR os) (negb (makedirs_raises os))
        \/ c = open_wb_ (unique_bmp_path os) (negb (open_raises os))
        \/ (c = write_ (unique_bmp_path os) (Spec.file_header b ++ b) true
            /\ snd (save_clipboard_image_to_disk os)
               = Done (unique_bmp_path os))
        \/ (exists n,
               c = write_ (unique_bmp_path os)
                     (firstn n (Spec.file_header b ++ b)) false
               /\ snd (save_clipboard_image_to_disk os) = Raised OSError)).
Proof.
  intros Hin Hdisk.
  assert (Hread : In c (fst (get_clipboard_dib_bytes os)) -> False).
  { intros H. apply clipboard_read_leaves_disk in H. congruence. }
  rewrite save_run in *.
  destruct (get_clipboard_dib_bytes os) as [t [b|]]; cbn [fst snd] in *;
    [|contradiction].
  destruct (negb (truthy b)); [contradiction|].
  destruct (reconstructor_outcomes b)
    as [(_ & E)|[(_ & _ & E)|[(_ & _ & E)|(Ha & Hf & E)]]];
    rewrite E in *; cbn [fst snd] in *; try contradiction.
  exists b. split; [reflexivity|]. split; [exact Ha|]. split; [exact Hf|].
  destruct (makedirs_raises os); [|destruct (open_raises os);
                                   [|destruct (write_raises os) as [n|]]];
    cbn [fst snd negb] in *;
    apply in_app_iff in Hin; destruct Hin as [Hin|Hin]; try contradiction;
    cbn in Hin; intuition eauto.
Qed.

Lemma disk_touched_only_after_conversion_disk_full :
  In (write_ (unique_bmp_path (Runs.disk_full_after 20 Samples.dib_pal8))
        (firstn 20 (Spec.file_header Samples.dib_pal8 ++ Samples.dib_pal8))
        false)
     (fst (save_clipboard_image_to_disk
             (Runs.disk_full_after 20 Samples.dib_pal8)))
  /\ exists b,
       snd (get_clipboard_dib_bytes
              (Runs.disk_full_after 20 Samples.dib_pal8)) = Some b
       /\ Spec.accepted b /\ Spec.header_fits b.
Proof.
  assert (Hin : In (write_
                      (unique_bmp_path
                         (Runs.disk_full_after 20 Samples.dib_pal8))
                      (firstn 20 (Spec.file_header Samples.dib_pal8
                                  ++ Samples.dib_pal8)) false)
                  (fst (save_clipboard_image_to_disk
                          (Runs.disk_full_after 20 Samples.dib_pal8))))
    by (vm_compute; tauto).
  split; [exact Hin|].
  destruct (disk_touched_only_after_conversion _ _ Hin eq_refl)
    as (b & E & Ha & Hf & _).
  exists b. split; [exact E|]. split; [exact Ha|exact Hf].
Defined.

(** X11. A path returned by [save_clipboard_image_to_disk] names a complete
    file: when the run returns a nonempty path, the clipboard read returned
    a buffer that passes both checks and whose header fits, the directory
    was made, and the file header followed by that buffer was written to
    that very path by a write that succeeded. *)
Theorem returned_path_names_complete_file (os : answers) (path : string) :
  snd (save_clipboard_image_to_disk os) = Done path ->
  path <> ""%string ->
  exists b,
    snd (get_clipboard_dib_bytes os) = Some b
    /\ Spec.accepted b /\ Spec.header_fits b
    /\ path = unique_bmp_path os
    /\ In (makedirs_ (STORAGE_DIR os) true)
         (fst (save_clipboard_image_to_disk os))
    /\ In (open_wb_ path true) (fst (save_clipboard_image_to_disk os))
    /\ In (write_ path (Spec.file_header b ++ b) true)
         (fst (save_clipboard_image_to_disk os)).
Proof.
  rewrite save_run.
  destruct (get_clipboard_dib_bytes os) as [t [b|]]; cbn [fst snd];
    [|intros E; injection E as <-; congruence].
  destruct (negb (truthy b)); [intros E; injection E as <-; congruence|].
  destruct (reconstructor_outcomes b)
    as [(_ & E)|[(_ & _ & E)|[(_ & _ & E)|(Ha & Hf & E)]]];
    rewrite E; cbn [fst snd]; try discriminate.
  destruct (makedirs_raises os); [discriminate|].
  destruct (open_raises os); [discriminate|].
  destruct (write_raises os); [discriminate|].
  cbn [fst snd]. intros Ep _. injection Ep as <-.
  exists b. split; [reflexivity|]. split; [exact Ha|]. split; [exact Hf|].
  split; [reflexivity|].
  repeat split; apply in_app_iff; right; cbn; auto.
Qed.

Lemma returned_path_names_complete_file_pal8 :
  exists path b,
    snd (save_clipboard_image_to_disk (Runs.with_dib Samples.dib_pal8))
    = Done path
    /\ path <> ""%string
    /\ snd (get_clipboard_dib_bytes (Runs.with_dib Samples.dib_pal8)) = Some b
    /\ In (write_ path (Spec.file_header b ++ b) true)
         (fst (save_clipboard_image_to_disk (Runs.with_dib Samples.dib_pal8))).
Proof.
  exists (unique_bmp_path (Runs.with_dib Samples.dib_pal8)).
  assert (E : snd (save_clipboard_image_to_disk
                     (Runs.with_dib Samples.dib_pal8))
              = Done (unique_bmp_path (Runs.with_dib Samples.dib_pal8)))
    by reflexivity.
  assert (Hne : unique_bmp_path (Runs.with_dib Samples.dib_pal8) <> ""%string)
    by (intro H; discriminate H).
  destruct (returned_path_names_complete_file _ _ E Hne)
    as (b & Eb & _ & _ & _ & _ & _ & Hw).
  exists b. split; [exact E|]. split; [exact Hne|].
  split; [exact Eb|exact Hw].
Defined.
